(** * Sovereign Forge: record schemas, validation rules and the shard
    lifecycle of the agent orchestrator

    A shallow embedding of [schemas.py] and [orchestrator.py].

    - Python [str] values are Rocq strings; the embedding covers ASCII text,
      where the character classes of the field patterns ([\d], [[A-Z]],
      [[a-f0-9]]) and the white space removed by [str_strip_whitespace]
      are the ASCII ones.
    - Python exceptions are an explicit [result]; an operation of the
      orchestrator returns its result together with the orchestrator it
      leaves behind, so that what an operation mutated before it raised
      stays visible.
    - The clock ([datetime.utcnow], [datetime.now]) is an explicit argument
      of every operation that reads it.
    - The files the orchestrator writes (the shard document and the journal
      directory) are components of the orchestrator state. *)

From Stdlib Require Import ZArith Lia Ascii String.
From stdpp Require Import gmap strings list fin_maps pretty.

Local Open Scope Z_scope.

(** ** Python string methods used by the sources *)

Module PyStr.

Definition nl : string := String "010" "".

Definition ascii_in (lo hi : nat) (c : ascii) : bool :=
  (lo <=? nat_of_ascii c)%nat && (nat_of_ascii c <=? hi)%nat.

Definition is_digit (c : ascii) : bool := ascii_in 48 57 c.
Definition is_upper (c : ascii) : bool := ascii_in 65 90 c.
Definition is_lower (c : ascii) : bool := ascii_in 97 122 c.
Definition is_hex_lower (c : ascii) : bool := is_digit c || ascii_in 97 102 c.

Definition to_lower (c : ascii) : ascii :=
  if is_upper c then ascii_of_nat (nat_of_ascii c + 32) else c.
Definition to_upper (c : ascii) : ascii :=
  if is_lower c then ascii_of_nat (nat_of_ascii c - 32) else c.

Fixpoint map_chars (f : ascii -> ascii) (s : string) : string :=
  match s with
  | EmptyString => EmptyString
  | String c s' => String (f c) (map_chars f s')
  end.

Fixpoint all_chars (p : ascii -> bool) (s : string) : bool :=
  match s with
  | EmptyString => true
  | String c s' => p c && all_chars p s'
  end.

(** [s.lower()], [s.upper()], [s.replace(a, b)] for single characters *)
Definition lower : string -> string := map_chars to_lower.
Definition upper : string -> string := map_chars to_upper.
Definition replace (a b : ascii) : string -> string :=
  map_chars (fun c => if Ascii.eqb c a then b else c).

(** [s.title()]: a letter is upper-cased when it does not follow a letter,
    lower-cased when it does *)
Fixpoint title_from (after_letter : bool) (s : string) : string :=
  match s with
  | EmptyString => EmptyString
  | String c s' =>
      let letter := is_upper c || is_lower c in
      String (if after_letter then to_lower c else to_upper c)
             (title_from letter s')
  end.
Definition title : string -> string := title_from false.

(** [s.strip()] *)
Fixpoint lstrip (s : string) : string :=
  match s with
  | EmptyString => EmptyString
  | String c s' => if Ascii.is_space c then lstrip s' else s
  end.
Definition rstrip (s : string) : string := String.rev (lstrip (String.rev s)).
Definition strip (s : string) : string := rstrip (lstrip s).

(** [sep.join(l)] *)
Fixpoint join (sep : string) (l : list string) : string :=
  match l with
  | [] => ""
  | [x] => x
  | x :: l' => x +:+ sep +:+ join sep l'
  end.

Fixpoint strip_prefix (p s : string) : option string :=
  match p, s with
  | EmptyString, _ => Some s
  | String a p', String b s' => if Ascii.eqb a b then strip_prefix p' s' else None
  | String _ _, EmptyString => None
  end.

(** a non-negative number in decimal, left-padded with zeros to [width] *)
Fixpoint zeros (n : nat) : string :=
  match n with O => "" | S n' => String "0" (zeros n') end.
Definition zfill (width : nat) (n : N) : string :=
  let d := pretty n in
  zeros (width - String.length d) +:+ d.

(** truthiness of a [str] and of an [Optional[str]] *)
Definition truthy (s : string) : bool :=
  match s with EmptyString => false | String _ _ => true end.
Definition truthy_opt (o : option string) : bool :=
  match o with None => false | Some s => truthy s end.

End PyStr.

(** ** schemas.py *)

Module Schemas.

(** *** Enumerations *)

Inductive TaskStatus :=
  PENDING | IN_PROGRESS | COMPLETED | BLOCKED | FAILED | ARCHIVED.

Definition TaskStatus_value (s : TaskStatus) : string :=
  match s with
  | PENDING => "pending"
  | IN_PROGRESS => "in_progress"
  | COMPLETED => "completed"
  | BLOCKED => "blocked"
  | FAILED => "failed"
  | ARCHIVED => "archived"
  end.

Inductive SecurityLevel :=
  PUBLIC | INTERNAL | CONFIDENTIAL | SECRET | TOP_SECRET.

Definition SecurityLevel_value (l : SecurityLevel) : Z :=
  match l with
  | PUBLIC => 1
  | INTERNAL => 2
  | CONFIDENTIAL => 3
  | SECRET => 4
  | TOP_SECRET => 5
  end.

Inductive AgentRole :=
| ARCHITECTURAL_SOVEREIGN
| CODE_GENERATION_MAESTRO
| SECURITY_SENTINEL
| DEVOPS_AUTOMATOR
| PROJECT_COORDINATOR
| FRONTEND_ENGINEER
| BACKEND_ENGINEER
| DATA_SCIENCE_SHAPER
| PERFORMANCE_OPTIMIZER
| TEST_AUTOMATION_DIRECTOR
| DOCUMENTATION_SYNTHESIZER
| UX_UI_DESIGNER.

Definition AgentRole_value (r : AgentRole) : string :=
  match r with
  | ARCHITECTURAL_SOVEREIGN => "architectural_sovereign"
  | CODE_GENERATION_MAESTRO => "code_generation_maestro"
  | SECURITY_SENTINEL => "security_sentinel"
  | DEVOPS_AUTOMATOR => "devops_automator"
  | PROJECT_COORDINATOR => "project_coordinator"
  | FRONTEND_ENGINEER => "reactive_frontend_engineer"
  | BACKEND_ENGINEER => "backend_systems_engineer"
  | DATA_SCIENCE_SHAPER => "data_science_shaper"
  | PERFORMANCE_OPTIMIZER => "performance_optimizer"
  | TEST_AUTOMATION_DIRECTOR => "test_automation_director"
  | DOCUMENTATION_SYNTHESIZER => "documentation_synthesizer"
  | UX_UI_DESIGNER => "ux_ui_designer"
  end.

#[global] Instance TaskStatus_eq_dec : EqDecision TaskStatus.
Proof. solve_decision. Defined.
#[global] Instance SecurityLevel_eq_dec : EqDecision SecurityLevel.
Proof. solve_decision. Defined.
#[global] Instance AgentRole_eq_dec : EqDecision AgentRole.
Proof. solve_decision. Defined.

(** *** Time stamps *)

Record datetime := {
  year : N; month : N; day : N;
  hour : N; minute : N; second : N; microsecond : N }.

(** [t.isoformat()] of a naive datetime *)
Definition isoformat (t : datetime) : string :=
  PyStr.zfill 4 (year t) +:+ "-" +:+ PyStr.zfill 2 (month t) +:+ "-" +:+
  PyStr.zfill 2 (day t) +:+ "T" +:+ PyStr.zfill 2 (hour t) +:+ ":" +:+
  PyStr.zfill 2 (minute t) +:+ ":" +:+ PyStr.zfill 2 (second t) +:+
  (if (microsecond t =? 0)%N then ""
   else "." +:+ PyStr.zfill 6 (microsecond t)).

(** [t.strftime("%Y-%m-%d-%H%M%S")] *)
Definition strftime_stamp (t : datetime) : string :=
  PyStr.zfill 4 (year t) +:+ "-" +:+ PyStr.zfill 2 (month t) +:+ "-" +:+
  PyStr.zfill 2 (day t) +:+ "-" +:+ PyStr.zfill 2 (hour t) +:+
  PyStr.zfill 2 (minute t) +:+ PyStr.zfill 2 (second t).

(** [t.strftime("%Y-%m-%d %H:%M:%S")] *)
Definition strftime_date (t : datetime) : string :=
  PyStr.zfill 4 (year t) +:+ "-" +:+ PyStr.zfill 2 (month t) +:+ "-" +:+
  PyStr.zfill 2 (day t) +:+ " " +:+ PyStr.zfill 2 (hour t) +:+ ":" +:+
  PyStr.zfill 2 (minute t) +:+ ":" +:+ PyStr.zfill 2 (second t).

(** *** Exceptions *)

(** [ValidationError] carries the names of the fields whose constraint is
    violated, in the order of the model's fields. [OSError] stands for the
    errors of [open] on a file name ([FileNotFoundError],
    [NotADirectoryError], file name too long), [ValueError] for the one it
    raises on a name with a NUL character. *)
Inductive exn :=
| ValidationError (fields : list string)
| KeyError (key : string)
| OSError (filename : string)
| ValueError (message : string).

Inductive result (A : Type) :=
| Ok (a : A)
| Raise (e : exn).
Arguments Ok {A} a.
Arguments Raise {A} e.

(** *** Field constraints *)

(** pattern [^SHARD-\d{3}-[A-Z]+$] *)
Definition shard_id_pattern (s : string) : bool :=
  match PyStr.strip_prefix "SHARD-" s with
  | Some (String d1 (String d2 (String d3 (String sep tag)))) =>
      PyStr.is_digit d1 && PyStr.is_digit d2 && PyStr.is_digit d3 &&
      Ascii.eqb sep "-" &&
      PyStr.truthy tag && PyStr.all_chars PyStr.is_upper tag
  | _ => false
  end.

(** pattern [^[a-f0-9]{7,40}$] *)
Definition commit_hash_pattern (s : string) : bool :=
  (7 <=? String.length s)%nat && (String.length s <=? 40)%nat &&
  PyStr.all_chars PyStr.is_hex_lower s.

Definition check_opt {A} (p : A -> bool) (o : option A) : bool :=
  match o with None => true | Some a => p a end.

(** A [str] field under [str_strip_whitespace=True]: the value is trimmed,
    then its length bounds and its pattern are checked; [None] stands for
    a violated constraint. *)
Definition str_field (min_length max_length : option nat)
    (pattern : option (string -> bool)) (raw : string) : option string :=
  let v := PyStr.strip raw in
  if check_opt (fun m => (m <=? String.length v)%nat) min_length &&
     check_opt (fun m => (String.length v <=? m)%nat) max_length &&
     check_opt (fun p => p v) pattern
  then Some v else None.

(** An [int] field with [ge] and [le] bounds *)
Definition int_field (ge le : option Z) (raw : Z) : option Z :=
  if check_opt (fun m => m <=? raw) ge && check_opt (fun m => raw <=? m) le
  then Some raw else None.

(** the name of a field whose validation failed *)
Definition failed {A} (name : string) (o : option A) : list string :=
  match o with None => [name] | Some _ => [] end.

(** *** Core data models *)

Module AgenticJournalEntry.
Record t := {
  task_id : string;
  guru_agent : AgentRole;
  timestamp : datetime;
  logic_summary : string;
  sub_agents_engaged : list string;
  git_commit_hash : option string;
  artifacts_created : list string;
  security_clearance : SecurityLevel;
  parent_context_id : option string;
  next_steps : list string;
  status : TaskStatus }.

(** Construction of the model from raw field values: every string is
    trimmed, every constraint is checked, and all violated fields are
    reported together. *)
Definition validate (raw : t) : result t :=
  let f_task_id := str_field (Some 5%nat) (Some 50%nat) None (task_id raw) in
  let f_logic_summary :=
    str_field (Some 10%nat) (Some 5000%nat) None (logic_summary raw) in
  let f_git_commit_hash :=
    match git_commit_hash raw with
    | None => Some None
    | Some h => Some <$> str_field None None (Some commit_hash_pattern) h
    end in
  match f_task_id, f_logic_summary, f_git_commit_hash with
  | Some tid, Some ls, Some gch =>
      Ok {| task_id := tid;
            guru_agent := guru_agent raw;
            timestamp := timestamp raw;
            logic_summary := ls;
            sub_agents_engaged := PyStr.strip <$> sub_agents_engaged raw;
            git_commit_hash := gch;
            artifacts_created := PyStr.strip <$> artifacts_created raw;
            security_clearance := security_clearance raw;
            parent_context_id := PyStr.strip <$> parent_context_id raw;
            next_steps := PyStr.strip <$> next_steps raw;
            status := status raw |}
  | _, _, _ =>
      Raise (ValidationError
               (failed "task_id" f_task_id ++
                failed "logic_summary" f_logic_summary ++
                failed "git_commit_hash" f_git_commit_hash))
  end.
End AgenticJournalEntry.

(** [test_coverage_percent], an optional float that no function of the
    module reads, is left out of the record. *)
Module CodeUpdate.
Record t := {
  file_path : string;
  language : string;
  code_snippet : string;
  tests_passed : bool;
  dependency_audit : option string;
  security_scan_passed : bool;
  linting_passed : bool;
  created_by : AgentRole;
  timestamp : datetime }.
End CodeUpdate.

Module StoryShardSpec.
Record t := {
  shard_id : string;
  title : string;
  description : string;
  owner_agent : AgentRole;
  contributing_agents : list AgentRole;
  priority : string;
  status : TaskStatus;
  dependencies : list string;
  estimated_complexity : Z;
  acceptance_criteria : list string;
  created_at : datetime;
  target_completion : option datetime }.

Definition validate (raw : t) : result t :=
  let f_shard_id := str_field None None (Some shard_id_pattern) (shard_id raw) in
  let f_title := str_field (Some 5%nat) (Some 200%nat) None (title raw) in
  let f_description := str_field (Some 20%nat) None None (description raw) in
  let f_complexity := int_field (Some 1) (Some 10) (estimated_complexity raw) in
  match f_shard_id, f_title, f_description, f_complexity with
  | Some sid, Some ti, Some de, Some ec =>
      Ok {| shard_id := sid;
            title := ti;
            description := de;
            owner_agent := owner_agent raw;
            contributing_agents := contributing_agents raw;
            priority := PyStr.strip (priority raw);
            status := status raw;
            dependencies := PyStr.strip <$> dependencies raw;
            estimated_complexity := ec;
            acceptance_criteria := PyStr.strip <$> acceptance_criteria raw;
            created_at := created_at raw;
            target_completion := target_completion raw |}
  | _, _, _, _ =>
      Raise (ValidationError
               (failed "shard_id" f_shard_id ++
                failed "title" f_title ++
                failed "description" f_description ++
                failed "estimated_complexity" f_complexity))
  end.
End StoryShardSpec.

(** *** Validation utilities *)

Definition validate_journal_entry (entry : AgenticJournalEntry.t) : bool :=
  if negb (PyStr.truthy (AgenticJournalEntry.task_id entry)) ||
     negb (PyStr.truthy (AgenticJournalEntry.logic_summary entry))
  then false
  else if bool_decide (AgenticJournalEntry.security_clearance entry = TOP_SECRET)
  then
    if negb (PyStr.truthy_opt (AgenticJournalEntry.git_commit_hash entry))
    then false
    else true
  else true.

Definition validate_code_update (update : CodeUpdate.t) : bool :=
  if negb (CodeUpdate.tests_passed update) then false
  else if negb (CodeUpdate.security_scan_passed update) then false
  else if negb (CodeUpdate.linting_passed update) then false
  else true.

End Schemas.

(** ** orchestrator.py *)

Module Orchestrator.
Import Schemas.

(** *** [json.dumps] of a list of strings (default [ensure_ascii]) *)

Definition dq : string := String "034" "".
Definition backslash : string := String "092" "".

Definition hex_digit (n : nat) : ascii :=
  match String.get n "0123456789abcdef" with Some c => c | None => "0"%char end.

Definition json_escape_char (c : ascii) : string :=
  let n := nat_of_ascii c in
  if (n =? 34)%nat then backslash +:+ dq
  else if (n =? 92)%nat then backslash +:+ backslash
  else if (n =? 10)%nat then backslash +:+ "n"
  else if (n =? 13)%nat then backslash +:+ "r"
  else if (n =? 9)%nat then backslash +:+ "t"
  else if (n =? 8)%nat then backslash +:+ "b"
  else if (n =? 12)%nat then backslash +:+ "f"
  else if (32 <=? n)%nat && (n <=? 126)%nat then String c ""
  else backslash +:+ "u00" +:+
       String (hex_digit (n / 16)) (String (hex_digit (n mod 16)) "").

Fixpoint json_escape (s : string) : string :=
  match s with
  | EmptyString => EmptyString
  | String c s' => json_escape_char c +:+ json_escape s'
  end.

Definition json_dumps (l : list string) : string :=
  "[" +:+ PyStr.join ", " ((fun s => dq +:+ json_escape s +:+ dq) <$> l) +:+ "]".

(** *** The orchestrator's data *)

(** an element of [manifest['guru_agents']] *)
Module GuruAgent.
Record t := { name : string; role : string; status : string }.
End GuruAgent.

(** the dictionary [create_story_shard] stores for a shard, with the
    [completed_at] key that [complete_shard] adds *)
Module ShardDict.
Record t := {
  shard_id : string;
  title : string;
  status : string;
  priority : string;
  owner_agent : string;
  created_at : string;
  dependencies : list string;
  completed_at : option string }.

Definition set_status (v : string) (s : t) : t :=
  {| shard_id := shard_id s; title := title s; status := v;
     priority := priority s; owner_agent := owner_agent s;
     created_at := created_at s; dependencies := dependencies s;
     completed_at := completed_at s |}.

Definition set_completed_at (v : string) (s : t) : t :=
  {| shard_id := shard_id s; title := title s; status := status s;
     priority := priority s; owner_agent := owner_agent s;
     created_at := created_at s; dependencies := dependencies s;
     completed_at := Some v |}.
End ShardDict.

(** the document of [active_story_shards.json], held in
    [self.active_shards]; the [metrics] sub-document, a dictionary of
    integer counters, may be missing *)
Module ShardDocument.
Record t := {
  active_shards : list ShardDict.t;
  completed_shards : list ShardDict.t;
  archived_shards : list ShardDict.t;
  metrics : option (gmap string Z) }.
End ShardDocument.

(** The orchestrator object together with the files it writes:
    [shards_file] is the content of [active_story_shards.json] ([None]
    when the file does not exist), [journal] the files of the journal
    directory by name. *)
Record t := {
  guru_agents : list GuruAgent.t;
  active_shards : ShardDocument.t;
  shards_file : option ShardDocument.t;
  journal : gmap string string }.

Definition set_active_shards (d : ShardDocument.t) (self : t) : t :=
  {| guru_agents := guru_agents self; active_shards := d;
     shards_file := shards_file self; journal := journal self |}.

Definition _load_active_shards (file : option ShardDocument.t) : ShardDocument.t :=
  match file with
  | None =>
      {| ShardDocument.active_shards := [];
         ShardDocument.completed_shards := [];
         ShardDocument.archived_shards := [];
         ShardDocument.metrics := None |}
  | Some d => d
  end.

(** [__init__], given the agents of the manifest and the files found *)
Definition init (agents : list GuruAgent.t) (file : option ShardDocument.t)
    (journal_files : gmap string string) : t :=
  {| guru_agents := agents;
     active_shards := _load_active_shards file;
     shards_file := file;
     journal := journal_files |}.

Definition _save_active_shards (self : t) : t :=
  {| guru_agents := guru_agents self; active_shards := active_shards self;
     shards_file := Some (active_shards self); journal := journal self |}.

(** [x or []] *)
Definition or_empty {A} (o : option (list A)) : list A :=
  match o with None => [] | Some l => l end.

(** the first shard of a list with the given id, with its index *)
Definition find_shard (shard_id : string) (l : list ShardDict.t)
  : option (nat * ShardDict.t) :=
  list_find (fun s => ShardDict.shard_id s = shard_id) l.

(** the first agent whose name, lower-cased and with spaces replaced by
    underscores, is the given role value *)
Definition find_agent (role_value : string) (l : list GuruAgent.t)
  : option (nat * GuruAgent.t) :=
  list_find
    (fun a => PyStr.replace " " "_" (PyStr.lower (GuruAgent.name a)) = role_value) l.

Definition get_agent_by_role (self : t) (role : AgentRole) : option GuruAgent.t :=
  snd <$> find_agent (AgentRole_value role) (guru_agents self).

(** *** Shard lifecycle *)

(** the keyword arguments [create_story_shard] passes to [StoryShardSpec],
    completed with the model's defaults *)
Definition shard_request (utcnow : datetime)
    (shard_id title description : string) (owner_agent : AgentRole)
    (priority : string) (dependencies : option (list string))
  : StoryShardSpec.t :=
  {| StoryShardSpec.shard_id := shard_id;
     StoryShardSpec.title := title;
     StoryShardSpec.description := description;
     StoryShardSpec.owner_agent := owner_agent;
     StoryShardSpec.contributing_agents := [];
     StoryShardSpec.priority := priority;
     StoryShardSpec.status := PENDING;
     StoryShardSpec.dependencies := or_empty dependencies;
     StoryShardSpec.estimated_complexity := 5;
     StoryShardSpec.acceptance_criteria := [];
     StoryShardSpec.created_at := utcnow;
     StoryShardSpec.target_completion := None |}.

(** [shard_dict], the dictionary stored for a validated shard *)
Definition shard_dict (shard : StoryShardSpec.t) : ShardDict.t :=
  {| ShardDict.shard_id := StoryShardSpec.shard_id shard;
     ShardDict.title := StoryShardSpec.title shard;
     ShardDict.status := TaskStatus_value (StoryShardSpec.status shard);
     ShardDict.priority := StoryShardSpec.priority shard;
     ShardDict.owner_agent := AgentRole_value (StoryShardSpec.owner_agent shard);
     ShardDict.created_at := isoformat (StoryShardSpec.created_at shard);
     ShardDict.dependencies := StoryShardSpec.dependencies shard;
     ShardDict.completed_at := None |}.

(** No collection is searched for the id of the new shard. *)
Definition create_story_shard (self : t) (utcnow : datetime)
    (shard_id title description : string) (owner_agent : AgentRole)
    (priority : string) (dependencies : option (list string))
  : result StoryShardSpec.t * t :=
  match StoryShardSpec.validate
          (shard_request utcnow shard_id title description owner_agent
             priority dependencies) with
  | Raise e => (Raise e, self)
  | Ok shard =>
      let d := active_shards self in
      let d' :=
        {| ShardDocument.active_shards :=
             ShardDocument.active_shards d ++ [shard_dict shard];
           ShardDocument.completed_shards := ShardDocument.completed_shards d;
           ShardDocument.archived_shards := ShardDocument.archived_shards d;
           ShardDocument.metrics := ShardDocument.metrics d |} in
      (Ok shard, _save_active_shards (set_active_shards d' self))
  end.

(** The shard found is the dictionary inside the list: setting its status
    updates the list in place, at the index where it was found. Its
    [dependencies] are not read. *)
Definition assign_shard_to_agent (self : t) (shard_id : string)
  : option GuruAgent.t * t :=
  let d := active_shards self in
  match find_shard shard_id (ShardDocument.active_shards d) with
  | None => (None, self)
  | Some (i, shard) =>
      match find_agent (ShardDict.owner_agent shard) (guru_agents self) with
      | None => (None, self)
      | Some (_, agent) =>
          let shard' := ShardDict.set_status (TaskStatus_value IN_PROGRESS) shard in
          let d' :=
            {| ShardDocument.active_shards := <[i := shard']> (ShardDocument.active_shards d);
               ShardDocument.completed_shards := ShardDocument.completed_shards d;
               ShardDocument.archived_shards := ShardDocument.archived_shards d;
               ShardDocument.metrics := ShardDocument.metrics d |} in
          (Some agent, _save_active_shards (set_active_shards d' self))
      end
  end.

(** The shard is popped from the active list and appended to the
    completed list before the counter is read: when the [metrics]
    sub-document or its [total_completed] key is missing, [KeyError] is
    raised with both lists already changed and nothing saved. *)
Definition complete_shard (self : t) (now : datetime) (shard_id : string)
  : result bool * t :=
  let d := active_shards self in
  match find_shard shard_id (ShardDocument.active_shards d) with
  | None => (Ok false, self)
  | Some (i, shard) =>
      let shard' :=
        ShardDict.set_completed_at (isoformat now)
          (ShardDict.set_status (TaskStatus_value COMPLETED) shard) in
      let moved (m : option (gmap string Z)) :=
        {| ShardDocument.active_shards := delete i (ShardDocument.active_shards d);
           ShardDocument.completed_shards := ShardDocument.completed_shards d ++ [shard'];
           ShardDocument.archived_shards := ShardDocument.archived_shards d;
           ShardDocument.metrics := m |} in
      match ShardDocument.metrics d with
      | None =>
          (Raise (KeyError "metrics"),
           set_active_shards (moved None) self)
      | Some m =>
          match m !! "total_completed" with
          | None =>
              (Raise (KeyError "total_completed"),
               set_active_shards (moved (Some m)) self)
          | Some n =>
              (Ok true,
               _save_active_shards
                 (set_active_shards
                    (moved (Some (<["total_completed" := n + 1]> m))) self))
          end
      end
  end.

(** *** Journal *)

Definition bullets (pre post : string) (l : list string) (empty : string) : string :=
  match l with
  | [] => empty
  | _ => PyStr.join PyStr.nl ((fun x => pre +:+ x +:+ post) <$> l)
  end.

Definition journal_content (entry : AgenticJournalEntry.t) : string :=
  let task_id := AgenticJournalEntry.task_id entry in
  let status := TaskStatus_value (AgenticJournalEntry.status entry) in
  let agent := AgentRole_value (AgenticJournalEntry.guru_agent entry) in
  PyStr.join PyStr.nl
    [ "---";
      "task_id: " +:+ dq +:+ task_id +:+ dq;
      "status: " +:+ dq +:+ status +:+ dq;
      "owner_agent: " +:+ dq +:+ agent +:+ dq;
      "contributing_agents: " +:+
        json_dumps (AgenticJournalEntry.sub_agents_engaged entry);
      "last_sync: " +:+ dq +:+
        isoformat (AgenticJournalEntry.timestamp entry) +:+ dq;
      "security_clearance: " +:+
        pretty (SecurityLevel_value (AgenticJournalEntry.security_clearance entry));
      "---";
      "";
      "# Journal Entry: " +:+ task_id;
      "";
      "**Date:** " +:+ strftime_date (AgenticJournalEntry.timestamp entry) +:+ "  ";
      "**Agent:** " +:+ PyStr.title (PyStr.replace "_" " " agent) +:+ "  ";
      "**Status:** " +:+ PyStr.upper status;
      "";
      "## Summary";
      "";
      AgenticJournalEntry.logic_summary entry;
      "";
      "## Sub-Agents Engaged";
      "";
      bullets "- " "" (AgenticJournalEntry.sub_agents_engaged entry) "None";
      "";
      "## Artifacts Created";
      "";
      bullets "- `" "`" (AgenticJournalEntry.artifacts_created entry) "None";
      "";
      "## Next Steps";
      "";
      bullets "- " "" (AgenticJournalEntry.next_steps entry) "To be determined";
      "";
      "---";
      "";
      "*Generated by Agent Orchestrator*";
      "" ].

(** the name of the journal file: the local time, to the second, and the
    lower-cased task id as it was passed *)
Definition journal_filename (now : datetime) (task_id : string) : string :=
  strftime_stamp now +:+ "-" +:+ PyStr.lower task_id +:+ ".md".

(** [open(filepath, 'w')] for a name in the journal directory, which
    holds files and no directories. A name with a NUL character is refused
    with [ValueError] before the file system is asked; a name with a slash
    lies in a subdirectory, which does not exist, and a name longer than
    [NAME_MAX] is refused by the file system, both with [OSError]. [None]
    means that the file is opened. *)
Definition NAME_MAX : nat := 255.

Definition has_char (c : ascii) (s : string) : bool :=
  negb (PyStr.all_chars (fun x => negb (Ascii.eqb x c)) s).

Definition open_for_writing (filename : string) : option exn :=
  if has_char "000" filename then Some (ValueError "embedded null byte")
  else if has_char "/" filename then Some (OSError filename)
  else if (NAME_MAX <? String.length filename)%nat then Some (OSError filename)
  else None.

(** The file is opened in mode ['w']: a file of the same name is replaced.
    When [open] raises, nothing has been written. *)
Definition create_journal_entry (self : t) (utcnow now : datetime)
    (task_id : string) (guru_agent : AgentRole) (logic_summary : string)
    (sub_agents_engaged artifacts_created : option (list string))
    (status : TaskStatus)
  : result AgenticJournalEntry.t * t :=
  match AgenticJournalEntry.validate
          {| AgenticJournalEntry.task_id := task_id;
             AgenticJournalEntry.guru_agent := guru_agent;
             AgenticJournalEntry.timestamp := utcnow;
             AgenticJournalEntry.logic_summary := logic_summary;
             AgenticJournalEntry.sub_agents_engaged := or_empty sub_agents_engaged;
             AgenticJournalEntry.git_commit_hash := None;
             AgenticJournalEntry.artifacts_created := or_empty artifacts_created;
             AgenticJournalEntry.security_clearance := INTERNAL;
             AgenticJournalEntry.parent_context_id := None;
             AgenticJournalEntry.next_steps := [];
             AgenticJournalEntry.status := status |} with
  | Raise e => (Raise e, self)
  | Ok entry =>
      let filename := journal_filename now task_id in
      match open_for_writing filename with
      | Some e => (Raise e, self)
      | None =>
          (Ok entry,
           {| guru_agents := guru_agents self;
              active_shards := active_shards self;
              shards_file := shards_file self;
              journal := <[filename := journal_content entry]> (journal self) |})
      end
  end.

End Orchestrator.

(** ** Observations on the shard document and runs of the lifecycle *)

Module Lifecycle.
Import Schemas Orchestrator.

Definition shard_ids (l : list ShardDict.t) : list string :=
  ShardDict.shard_id <$> l.

Definition active_ids (self : t) : list string :=
  shard_ids (ShardDocument.active_shards (active_shards self)).
Definition completed_ids (self : t) : list string :=
  shard_ids (ShardDocument.completed_shards (active_shards self)).
Definition archived_ids (self : t) : list string :=
  shard_ids (ShardDocument.archived_shards (active_shards self)).

(** the ids of the active shards with their statuses *)
Definition active_statuses (self : t) : list (string * string) :=
  (fun s => (ShardDict.shard_id s, ShardDict.status s))
    <$> ShardDocument.active_shards (active_shards self).

Definition all_ids (self : t) : list string :=
  active_ids self ++ completed_ids self ++ archived_ids self.

(** every shard id occurs once, in one collection *)
Definition ids_disjoint (self : t) : Prop := NoDup (all_ids self).

(** the total-completed counter, when the document has one *)
Definition total_completed (self : t) : option Z :=
  ShardDocument.metrics (active_shards self) ≫= (.!! "total_completed").

(** the constraints of [StoryShardSpec] on the fields that
    [create_story_shard] passes on from its caller *)
Definition fields_valid (shard_id title description : string) : Prop :=
  shard_id_pattern (PyStr.strip shard_id) = true ∧
  (5 <= String.length (PyStr.strip title) <= 200)%nat ∧
  (20 <= String.length (PyStr.strip description))%nat.

(** the lifecycle operations, with the clock reading each one takes *)
Inductive op :=
| Create (utcnow : datetime) (shard_id title description : string)
    (owner_agent : AgentRole) (priority : string)
    (dependencies : option (list string))
| Assign (shard_id : string)
| Complete (now : datetime) (shard_id : string).

(** the orchestrator an operation leaves behind, whether it returned or
    raised *)
Definition step (self : t) (o : op) : t :=
  match o with
  | Create utcnow i ti de ow pr deps =>
      snd (create_story_shard self utcnow i ti de ow pr deps)
  | Assign i => snd (assign_shard_to_agent self i)
  | Complete now i => snd (complete_shard self now i)
  end.

Definition run (self : t) (ops : list op) : t := fold_left step ops self.

(** every [Create] of the run is given an id that, trimmed, is in no
    collection at that point *)
Fixpoint creates_fresh (self : t) (ops : list op) : Prop :=
  match ops with
  | [] => True
  | o :: ops' =>
      match o with
      | Create _ i _ _ _ _ _ => PyStr.strip i ∉ all_ids self
      | _ => True
      end ∧ creates_fresh (step self o) ops'
  end.

(** [shard], at index [i], is the first record of the list with the id:
    the record the loops over the active collection stop at *)
Definition first_shard (shard_id : string) (l : list ShardDict.t)
    (i : nat) (shard : ShardDict.t) : Prop :=
  l !! i = Some shard /\
  ShardDict.shard_id shard = shard_id /\
  forall k s, l !! k = Some s -> (k < i)%nat -> ShardDict.shard_id s <> shard_id.

(** [agent], at index [j], is the first agent of the list whose name,
    lower-cased and with underscores for spaces, is the role value *)
Definition first_agent (role_value : string) (l : list GuruAgent.t)
    (j : nat) (agent : GuruAgent.t) : Prop :=
  l !! j = Some agent /\
  PyStr.replace " " "_" (PyStr.lower (GuruAgent.name agent)) = role_value /\
  forall k a, l !! k = Some a -> (k < j)%nat ->
    PyStr.replace " " "_" (PyStr.lower (GuruAgent.name a)) <> role_value.

End Lifecycle.

(** ** Sample data *)

Module Sample.
Import Schemas Orchestrator.

Definition morning : datetime :=
  {| year := 2026%N; month := 1%N; day := 13%N;
     hour := 9%N; minute := 5%N; second := 7%N; microsecond := 1200%N |}.

(** later within the same second *)
Definition morning' : datetime :=
  {| year := 2026%N; month := 1%N; day := 13%N;
     hour := 9%N; minute := 5%N; second := 7%N; microsecond := 481516%N |}.

Definition agents : list GuruAgent.t :=
  [ {| GuruAgent.name := "Architectural Sovereign";
       GuruAgent.role := "System Design & Pattern Governance";
       GuruAgent.status := "active" |};
    {| GuruAgent.name := "Security Sentinel";
       GuruAgent.role := "Security & Compliance";
       GuruAgent.status := "active" |} ].

(** an orchestrator started without a shard file *)
Definition fresh : t := init agents None ∅.

(** an orchestrator started on a shard file with empty collections and a
    zero counter *)
Definition counted : t :=
  init agents
    (Some {| ShardDocument.active_shards := [];
             ShardDocument.completed_shards := [];
             ShardDocument.archived_shards := [];
             ShardDocument.metrics := Some {[ "total_completed" := 0 ]} |})
    ∅.

Definition a_title : string := "Initialise the forge repository".
Definition a_description : string :=
  "Create the core directories and the manifest files.".

(** [self] after a [create_story_shard] owned by the Architectural
    Sovereign *)
Definition with_shard (self : t) (shard_id : string)
    (dependencies : option (list string)) : t :=
  snd (create_story_shard self morning shard_id a_title a_description
         ARCHITECTURAL_SOVEREIGN "high" dependencies).

(** one pending shard, then the same shard completed *)
Definition one_active : t := with_shard counted "SHARD-001-INIT" None.
Definition one_completed : t :=
  snd (complete_shard one_active morning' "SHARD-001-INIT").

(** a pending shard that depends on a shard no collection holds *)
Definition one_waiting : t :=
  with_shard counted "SHARD-002-BUILD" (Some ["SHARD-001-INIT"]).

(** [self] after a [create_story_shard] owned by the Security Sentinel,
    the second agent of the manifest *)
Definition with_sentinel_shard (self : t) (shard_id : string)
    (dependencies : option (list string)) : t :=
  snd (create_story_shard self morning shard_id a_title a_description
         SECURITY_SENTINEL "medium" dependencies).

(** two pending shards; the second depends on the first, which is not
    completed *)
Definition two_active : t :=
  with_sentinel_shard (with_shard counted "SHARD-001-INIT" None)
    "SHARD-002-BUILD" (Some ["SHARD-001-INIT"]).

(** the same, with the second shard assigned *)
Definition second_assigned : t :=
  snd (assign_shard_to_agent two_active "SHARD-002-BUILD").

(** two shards created without a shard file, the second assigned *)
Definition second_assigned_uncounted : t :=
  snd (assign_shard_to_agent
         (with_sentinel_shard (with_shard fresh "SHARD-001-INIT" None)
            "SHARD-002-BUILD" None)
         "SHARD-002-BUILD").

(** a manifest in which two agents have names that stand for one role *)
Definition twin_agents : list GuruAgent.t :=
  [ {| GuruAgent.name := "Architectural Sovereign";
       GuruAgent.role := "System Design & Pattern Governance";
       GuruAgent.status := "active" |};
    {| GuruAgent.name := "Security Sentinel";
       GuruAgent.role := "Security & Compliance";
       GuruAgent.status := "active" |};
    {| GuruAgent.name := "security_sentinel";
       GuruAgent.role := "Stand-in";
       GuruAgent.status := "planned" |} ].

Definition twins : t := init twin_agents None ∅.

(** a shard created without a shard file, then assigned *)
Definition one_assigned : t :=
  snd (assign_shard_to_agent (with_shard fresh "SHARD-001-INIT" None)
         "SHARD-001-INIT").

(** create a shard, complete it, create it again *)
Definition create_complete_create : list Lifecycle.op :=
  [ Lifecycle.Create morning "SHARD-001-INIT" a_title a_description
      ARCHITECTURAL_SOVEREIGN "high" None;
    Lifecycle.Complete morning' "SHARD-001-INIT";
    Lifecycle.Create morning' "SHARD-001-INIT" a_title a_description
      ARCHITECTURAL_SOVEREIGN "high" None ].

(** create two shards, assign and complete the first *)
Definition two_shards : list Lifecycle.op :=
  [ Lifecycle.Create morning "SHARD-001-INIT" a_title a_description
      ARCHITECTURAL_SOVEREIGN "high" None;
    Lifecycle.Create morning "SHARD-002-BUILD" a_title a_description
      SECURITY_SENTINEL "medium" (Some ["SHARD-001-INIT"]);
    Lifecycle.Assign "SHARD-001-INIT";
    Lifecycle.Complete morning' "SHARD-001-INIT" ].

(** two journal entries for one task, written within the same second *)
Definition first_record (self : t) : result AgenticJournalEntry.t * t :=
  create_journal_entry self morning morning "SHARD-006-WORKFLOW"
    ARCHITECTURAL_SOVEREIGN
    "Analyzed requirements and created architectural specification."
    (Some ["Pattern Matcher"; "Constraint Validator"])
    (Some ["specs/workflow_test_spec.md"]) IN_PROGRESS.

Definition second_record (self : t) : result AgenticJournalEntry.t * t :=
  create_journal_entry self morning' morning' "SHARD-006-WORKFLOW"
    CODE_GENERATION_MAESTRO
    "Generated code based on architectural specification from Architectural Sovereign."
    (Some ["Syntax Specialist"]) (Some ["src/workflow_test.py"]) IN_PROGRESS.

Definition top_secret_entry (hash : option string) : AgenticJournalEntry.t :=
  {| AgenticJournalEntry.task_id := "SHARD-001-INIT";
     AgenticJournalEntry.guru_agent := SECURITY_SENTINEL;
     AgenticJournalEntry.timestamp := morning;
     AgenticJournalEntry.logic_summary := "Rotated the signing keys of the forge.";
     AgenticJournalEntry.sub_agents_engaged := [];
     AgenticJournalEntry.git_commit_hash := hash;
     AgenticJournalEntry.artifacts_created := [];
     AgenticJournalEntry.security_clearance := TOP_SECRET;
     AgenticJournalEntry.parent_context_id := None;
     AgenticJournalEntry.next_steps := [];
     AgenticJournalEntry.status := COMPLETED |}.

End Sample.

(** ** Queries of the orchestrator *)

Module Reporting.
Import Schemas Orchestrator.

Inductive OrchestratorMode := DEVELOPMENT | TESTING | PRODUCTION.

Definition OrchestratorMode_value (m : OrchestratorMode) : string :=
  match m with
  | DEVELOPMENT => "development"
  | TESTING => "testing"
  | PRODUCTION => "production"
  end.

(** [list_guru_agents]: the filter is applied when [status] is truthy, so
    neither [None] nor the empty string filters *)
Definition list_guru_agents (self : t) (status : option string)
  : list GuruAgent.t :=
  if PyStr.truthy_opt status
  then filter (fun a => Some (GuruAgent.status a) = status) (guru_agents self)
  else guru_agents self.

(** the dictionary [get_status_report] returns *)
Record StatusReport := {
  platform : string;
  mode : string;
  agents_total : nat;
  agents_active : nat;
  agents_planned : nat;
  shards_active : nat;
  shards_completed : nat;
  shards_total : nat;
  last_updated : string }.

(** [get_status_report]; the platform name of the manifest and the mode
    of the orchestrator, which no other operation reads, are arguments *)
Definition get_status_report (self : t) (platform_name : string)
    (m : OrchestratorMode) (now : datetime) : StatusReport :=
  let active_agents :=
    filter (fun a => GuruAgent.status a = "active") (guru_agents self) in
  let active := ShardDocument.active_shards (active_shards self) in
  let completed := ShardDocument.completed_shards (active_shards self) in
  {| platform := platform_name;
     mode := OrchestratorMode_value m;
     agents_total := length (guru_agents self);
     agents_active := length active_agents;
     agents_planned :=
       length (filter (fun a => GuruAgent.status a = "planned") (guru_agents self));
     shards_active := length active;
     shards_completed := length completed;
     shards_total := (length active + length completed)%nat;
     last_updated := isoformat now |}.

End Reporting.

(** ** Well-formed shard records *)

Module Records.
Import Schemas Orchestrator.

(** a record as the lifecycle writes it into the active collection: a
    valid id, the value of a role as owner, pending or in progress, not
    yet completed *)
Definition active_record (s : ShardDict.t) : Prop :=
  shard_id_pattern (ShardDict.shard_id s) = true /\
  (exists role, ShardDict.owner_agent s = AgentRole_value role) /\
  (ShardDict.status s = TaskStatus_value PENDING \/
   ShardDict.status s = TaskStatus_value IN_PROGRESS) /\
  ShardDict.completed_at s = None.

(** a record as the lifecycle writes it into the completed collection *)
Definition completed_record (s : ShardDict.t) : Prop :=
  shard_id_pattern (ShardDict.shard_id s) = true /\
  (exists role, ShardDict.owner_agent s = AgentRole_value role) /\
  ShardDict.status s = TaskStatus_value COMPLETED /\
  is_Some (ShardDict.completed_at s).

Definition well_formed (self : t) : Prop :=
  Forall active_record (ShardDocument.active_shards (active_shards self)) /\
  Forall completed_record (ShardDocument.completed_shards (active_shards self)).

(** [s] occurs in [text] *)
Definition occurs_in (s text : string) : Prop :=
  exists before after, text = before +:+ s +:+ after.

End Records.

(** ** Character classes used in the properties *)

Module Text.

Definition no_space (c : ascii) : bool := negb (Ascii.is_space c).

(** a character that is neither a capital letter nor a space *)
Definition slug_char (c : ascii) : bool :=
  negb (PyStr.is_upper c) && negb (Ascii.eqb c " ").

End Text.

(** ** Clock readings *)

Module Clock.
Import Schemas.

(** the fields of a [datetime] of the current era: a four-digit year and
    the calendar and clock ranges of Python's [datetime] *)
Definition in_range (t : datetime) : Prop :=
  (1000 <= year t <= 9999)%N /\ (1 <= month t <= 12)%N /\ (1 <= day t <= 31)%N /\
  (hour t < 24)%N /\ (minute t < 60)%N /\ (second t < 60)%N /\
  (microsecond t < 1000000)%N.

(** two readings that agree to the second *)
Definition same_second (t1 t2 : datetime) : Prop :=
  year t1 = year t2 /\ month t1 = month t2 /\ day t1 = day t2 /\
  hour t1 = hour t2 /\ minute t1 = minute t2 /\ second t1 = second t2.

(** the number a string of decimal digits denotes *)
Fixpoint digits_value (acc : N) (s : string) : N :=
  match s with
  | EmptyString => acc
  | String c s' => digits_value (10 * acc + (N_of_ascii c - 48))%N s'
  end.

(** [zfill] gives the number back in the given number of digits *)
Definition two_digits (n : N) : bool :=
  (String.length (PyStr.zfill 2 n) =? 2)%nat &&
  (digits_value 0 (PyStr.zfill 2 n) =? n)%N.

Definition four_digits (n : N) : bool :=
  (String.length (PyStr.zfill 4 n) =? 4)%nat &&
  (digits_value 0 (PyStr.zfill 4 n) =? n)%N.

End Clock.

(** ** Lemmas and theorems *)

Import Schemas Orchestrator Lifecycle Sample.

Section Validation.

Lemma truthy_true (s : string) : PyStr.truthy s = true <-> s <> "".
Proof. destruct s; simpl; split; congruence. Qed.

Lemma truthy_length (s : string) :
  (0 < String.length s)%nat -> PyStr.truthy s = true.
Proof. destruct s; simpl; [lia | done]. Qed.

Lemma str_field_strip mn mx p raw v :
  str_field mn mx p raw = Some v -> v = PyStr.strip raw.
Proof. unfold str_field. case_match; congruence. Qed.

Lemma shard_field_ok (i : string) :
  shard_id_pattern (PyStr.strip i) = true ->
  str_field None None (Some shard_id_pattern) i = Some (PyStr.strip i).
Proof. intros H. unfold str_field. simpl. by rewrite H. Qed.

Lemma shard_field_bad (i : string) :
  shard_id_pattern (PyStr.strip i) = false ->
  str_field None None (Some shard_id_pattern) i = None.
Proof. intros H. unfold str_field. simpl. by rewrite H. Qed.

Lemma bounded_field_ok (lo hi : nat) (raw : string) :
  (lo <= String.length (PyStr.strip raw) <= hi)%nat ->
  str_field (Some lo) (Some hi) None raw = Some (PyStr.strip raw).
Proof.
  intros [H1 H2]. unfold str_field. simpl.
  apply Nat.leb_le in H1, H2. by rewrite H1, H2.
Qed.

Lemma min_field_ok (lo : nat) (raw : string) :
  (lo <= String.length (PyStr.strip raw))%nat ->
  str_field (Some lo) None None raw = Some (PyStr.strip raw).
Proof.
  intros H1. unfold str_field. simpl. apply Nat.leb_le in H1. by rewrite H1.
Qed.

End Validation.

Section Create.

Lemma shard_validate_ok utcnow i ti de ow pr deps :
  fields_valid i ti de ->
  exists shard,
    StoryShardSpec.validate (shard_request utcnow i ti de ow pr deps) = Ok shard /\
    StoryShardSpec.shard_id shard = PyStr.strip i /\
    StoryShardSpec.status shard = PENDING /\
    StoryShardSpec.owner_agent shard = ow /\
    StoryShardSpec.dependencies shard = PyStr.strip <$> or_empty deps.
Proof.
  intros (Hid & Hti & Hde). eexists. split.
  - unfold StoryShardSpec.validate, shard_request. cbn [StoryShardSpec.shard_id
      StoryShardSpec.title StoryShardSpec.description
      StoryShardSpec.estimated_complexity].
    rewrite (shard_field_ok _ Hid), (bounded_field_ok _ _ _ Hti),
      (min_field_ok _ _ Hde).
    reflexivity.
  - done.
Qed.

Lemma shard_validate_bad_id utcnow i ti de ow pr deps :
  shard_id_pattern (PyStr.strip i) = false ->
  exists fields,
    StoryShardSpec.validate (shard_request utcnow i ti de ow pr deps)
    = Raise (ValidationError ("shard_id" :: fields)).
Proof.
  intros Hid. unfold StoryShardSpec.validate, shard_request.
  cbn [StoryShardSpec.shard_id StoryShardSpec.title StoryShardSpec.description
       StoryShardSpec.estimated_complexity].
  rewrite (shard_field_bad _ Hid). eexists. reflexivity.
Qed.

Lemma shard_validate_id utcnow i ti de ow pr deps shard :
  StoryShardSpec.validate (shard_request utcnow i ti de ow pr deps) = Ok shard ->
  StoryShardSpec.shard_id shard = PyStr.strip i.
Proof.
  unfold StoryShardSpec.validate, shard_request.
  cbn [StoryShardSpec.shard_id StoryShardSpec.title StoryShardSpec.description
       StoryShardSpec.estimated_complexity].
  destruct (str_field None None _ i) as [sid|] eqn:E; [|by repeat case_match].
  apply str_field_strip in E. subst sid.
  repeat case_match; intros [= <-]; done.
Qed.

(** What a [Create] does to the three collections: nothing when the
    fields are rejected, one record appended to the active one otherwise. *)
Lemma create_story_shard_cases self utcnow i ti de ow pr deps :
  (exists fields,
      create_story_shard self utcnow i ti de ow pr deps
      = (Raise (ValidationError fields), self)) \/
  (exists shard self',
      create_story_shard self utcnow i ti de ow pr deps = (Ok shard, self') /\
      StoryShardSpec.shard_id shard = PyStr.strip i /\
      ShardDocument.active_shards (active_shards self')
      = ShardDocument.active_shards (active_shards self) ++ [shard_dict shard] /\
      ShardDocument.completed_shards (active_shards self')
      = ShardDocument.completed_shards (active_shards self) /\
      ShardDocument.archived_shards (active_shards self')
      = ShardDocument.archived_shards (active_shards self) /\
      ShardDocument.metrics (active_shards self')
      = ShardDocument.metrics (active_shards self) /\
      shards_file self' = Some (active_shards self') /\
      journal self' = journal self /\
      guru_agents self' = guru_agents self).
Proof.
  unfold create_story_shard.
  destruct (StoryShardSpec.validate _) as [shard|e] eqn:E.
  - right. eexists _, _. split; [reflexivity|].
    split; [by eapply shard_validate_id|]. done.
  - left. revert E. unfold StoryShardSpec.validate.
    repeat case_match; intros [= <-]; eauto.
Qed.

(** With valid fields the call returns and appends one record. *)
Lemma create_story_shard_valid self utcnow i ti de ow pr deps :
  fields_valid i ti de ->
  exists shard self',
    create_story_shard self utcnow i ti de ow pr deps = (Ok shard, self') /\
    StoryShardSpec.shard_id shard = PyStr.strip i /\
    StoryShardSpec.dependencies shard = PyStr.strip <$> or_empty deps /\
    ShardDocument.active_shards (active_shards self')
    = ShardDocument.active_shards (active_shards self) ++ [shard_dict shard] /\
    active_ids self' = active_ids self ++ [PyStr.strip i] /\
    completed_ids self' = completed_ids self /\
    archived_ids self' = archived_ids self /\
    ShardDocument.metrics (active_shards self')
    = ShardDocument.metrics (active_shards self) /\
    shards_file self' = Some (active_shards self').
Proof.
  intros Hvalid.
  destruct (shard_validate_ok utcnow i ti de ow pr deps Hvalid)
    as (shard & Hok & Hid & _ & _ & Hdeps).
  exists shard. eexists. unfold create_story_shard. rewrite Hok.
  split; [reflexivity|]. split; [done|]. split; [done|]. split; [done|].
  unfold active_ids, completed_ids, archived_ids, shard_ids. simpl.
  rewrite fmap_app. simpl. by rewrite Hid.
Qed.

(** With valid fields the call returns, and the record it appends is made
    of the trimmed strings, the role value, the creation time and the
    dependencies given; nothing else of the document changes. *)
Lemma create_story_shard_stored self utcnow i ti de ow pr deps :
  fields_valid i ti de ->
  exists shard self',
    create_story_shard self utcnow i ti de ow pr deps = (Ok shard, self') /\
    StoryShardSpec.shard_id shard = PyStr.strip i /\
    StoryShardSpec.dependencies shard = PyStr.strip <$> or_empty deps /\
    ShardDocument.active_shards (active_shards self')
    = ShardDocument.active_shards (active_shards self) ++
      [ {| ShardDict.shard_id := PyStr.strip i;
           ShardDict.title := PyStr.strip ti;
           ShardDict.status := "pending";
           ShardDict.priority := PyStr.strip pr;
           ShardDict.owner_agent := AgentRole_value ow;
           ShardDict.created_at := isoformat utcnow;
           ShardDict.dependencies := PyStr.strip <$> or_empty deps;
           ShardDict.completed_at := None |} ] /\
    ShardDocument.completed_shards (active_shards self')
    = ShardDocument.completed_shards (active_shards self) /\
    ShardDocument.archived_shards (active_shards self')
    = ShardDocument.archived_shards (active_shards self) /\
    ShardDocument.metrics (active_shards self')
    = ShardDocument.metrics (active_shards self) /\
    shards_file self' = Some (active_shards self') /\
    journal self' = journal self /\
    guru_agents self' = guru_agents self.
Proof.
  intros (Hid & Hti & Hde).
  unfold create_story_shard, StoryShardSpec.validate, shard_request.
  cbn [StoryShardSpec.shard_id StoryShardSpec.title StoryShardSpec.description
       StoryShardSpec.estimated_complexity].
  rewrite (shard_field_ok _ Hid), (bounded_field_ok _ _ _ Hti),
    (min_field_ok _ _ Hde).
  eexists _, _. split; [reflexivity|]. done.
Qed.

End Create.


(** C5. [validate_code_update] returns true exactly when [tests_passed],
    [security_scan_passed] and [linting_passed] are all true: on each of
    the eight combinations of the three flags it returns their
    conjunction, whatever the other fields are. *)
Theorem validate_code_update_all_gates (update : CodeUpdate.t) :
  (validate_code_update update = true <->
   CodeUpdate.tests_passed update = true /\
   CodeUpdate.security_scan_passed update = true /\
   CodeUpdate.linting_passed update = true) /\
  validate_code_update update
  = CodeUpdate.tests_passed update && CodeUpdate.security_scan_passed update
    && CodeUpdate.linting_passed update.
Proof.
  unfold validate_code_update.
  destruct (CodeUpdate.tests_passed update),
    (CodeUpdate.security_scan_passed update),
    (CodeUpdate.linting_passed update); simpl; intuition congruence.
Qed.

(** C6. [validate_journal_entry] returns false when [task_id] or
    [logic_summary] is empty, and when the clearance is [TOP_SECRET] and
    there is no commit hash; it returns true for a [TOP_SECRET] entry with
    non-empty [task_id] and [logic_summary] and a commit hash of seven
    lower-case hexadecimal characters; its value is determined by these
    four fields. *)
Theorem validate_journal_entry_policy (entry : AgenticJournalEntry.t) :
  (AgenticJournalEntry.task_id entry = "" \/
   AgenticJournalEntry.logic_summary entry = "" ->
   validate_journal_entry entry = false) /\
  (AgenticJournalEntry.security_clearance entry = TOP_SECRET ->
   AgenticJournalEntry.git_commit_hash entry = None ->
   validate_journal_entry entry = false) /\
  (forall h,
      AgenticJournalEntry.task_id entry <> "" ->
      AgenticJournalEntry.logic_summary entry <> "" ->
      AgenticJournalEntry.security_clearance entry = TOP_SECRET ->
      AgenticJournalEntry.git_commit_hash entry = Some h ->
      String.length h = 7%nat ->
      PyStr.all_chars PyStr.is_hex_lower h = true ->
      commit_hash_pattern h = true /\ validate_journal_entry entry = true) /\
  (forall entry',
      AgenticJournalEntry.task_id entry' = AgenticJournalEntry.task_id entry ->
      AgenticJournalEntry.logic_summary entry' = AgenticJournalEntry.logic_summary entry ->
      AgenticJournalEntry.security_clearance entry'
      = AgenticJournalEntry.security_clearance entry ->
      AgenticJournalEntry.git_commit_hash entry' = AgenticJournalEntry.git_commit_hash entry ->
      validate_journal_entry entry' = validate_journal_entry entry).
Proof.
  unfold validate_journal_entry. split; [|split; [|split]].
  - intros [-> | ->]; simpl; [done|]. by rewrite orb_true_r.
  - intros -> ->. simpl. by destruct (_ || _).
  - intros h Htask Hsum -> -> Hlen Hhex. split.
    + unfold commit_hash_pattern. by rewrite Hlen, Hhex.
    + apply truthy_true in Htask, Hsum. rewrite Htask, Hsum. simpl.
      rewrite truthy_length; [done | lia].
  - intros entry' -> -> -> ->. done.
Qed.

Lemma validate_journal_entry_policy_witness :
  validate_journal_entry (top_secret_entry None) = false /\
  validate_journal_entry (top_secret_entry (Some "a1b2c3d")) = true.
Proof.
  split.
  - destruct (validate_journal_entry_policy (top_secret_entry None))
      as (_ & Hnone & _).
    apply Hnone; reflexivity.
  - destruct (validate_journal_entry_policy (top_secret_entry (Some "a1b2c3d")))
      as (_ & _ & Hhash & _).
    apply (Hhash "a1b2c3d"); (reflexivity || discriminate).
Defined.

Section Lookup.

Lemma find_shard_None (i : string) (l : list ShardDict.t) :
  find_shard i l = None <-> i ∉ shard_ids l.
Proof.
  unfold find_shard, shard_ids. rewrite list_find_None, Forall_forall.
  rewrite list_elem_of_fmap. split.
  - intros H (s & -> & Hs). by apply (H s).
  - intros H s Hs Heq. apply H. eauto.
Qed.

Lemma find_shard_Some (i : string) (l : list ShardDict.t) n s :
  find_shard i l = Some (n, s) ->
  l !! n = Some s /\ ShardDict.shard_id s = i /\ shard_ids l !! n = Some i.
Proof.
  unfold find_shard, shard_ids. intros (Hn & Hid & _)%list_find_Some.
  repeat split; [done..|]. by rewrite list_lookup_fmap, Hn, <- Hid.
Qed.

Lemma set_status_same (s : ShardDict.t) :
  ShardDict.set_status (ShardDict.status s) s = s.
Proof. by destruct s. Qed.

Lemma shard_ids_insert (l : list ShardDict.t) n s v :
  l !! n = Some s ->
  shard_ids (<[n := ShardDict.set_status v s]> l) = shard_ids l.
Proof.
  intros Hn. unfold shard_ids. rewrite list_fmap_insert. simpl.
  apply list_insert_id. by rewrite list_lookup_fmap, Hn.
Qed.

(** the lookups of the operations stop at the first match *)
Lemma find_shard_first (i : string) (l : list ShardDict.t) n s :
  find_shard i l = Some (n, s) <-> first_shard i l n s.
Proof.
  unfold find_shard, first_shard.
  apply (list_find_Some (fun x => ShardDict.shard_id x = i)).
Qed.

Lemma find_agent_first (v : string) (l : list GuruAgent.t) j a :
  find_agent v l = Some (j, a) <-> first_agent v l j a.
Proof.
  unfold find_agent, first_agent.
  apply (list_find_Some
           (fun x => PyStr.replace " " "_" (PyStr.lower (GuruAgent.name x)) = v)).
Qed.

End Lookup.

(** C4, as the code has it. For a shard id that is not in the active
    collection, [complete_shard] raises nothing: it returns [False], a
    boolean result, and leaves the orchestrator as it was, so the active
    and completed collections, the counter and the saved shard file are
    unchanged. *)
Theorem complete_shard_not_found (self : t) (now : datetime) (shard_id : string) :
  shard_id ∉ active_ids self ->
  complete_shard self now shard_id = (Ok false, self) /\
  (forall e, fst (complete_shard self now shard_id) <> Raise e) /\
  active_ids (snd (complete_shard self now shard_id)) = active_ids self /\
  completed_ids (snd (complete_shard self now shard_id)) = completed_ids self /\
  total_completed (snd (complete_shard self now shard_id)) = total_completed self /\
  shards_file (snd (complete_shard self now shard_id)) = shards_file self.
Proof.
  intros Hnot%find_shard_None.
  assert (complete_shard self now shard_id = (Ok false, self)) as ->; [|done].
  unfold complete_shard. by rewrite Hnot.
Qed.

Lemma complete_shard_not_found_witness :
  complete_shard one_completed morning "SHARD-001-INIT" = (Ok false, one_completed).
Proof.
  apply (complete_shard_not_found one_completed morning "SHARD-001-INIT").
  vm_compute. apply not_elem_of_nil.
Defined.

(** C4, as stated, fails: [SHARD-001-INIT] has been completed and is not
    in the active collection, and completing it again does not fail with
    an error: the call returns [False] and raises nothing. *)
Lemma complete_shard_returns_false_instead_of_raising :
  ("SHARD-001-INIT" ∉ active_ids one_completed) /\
  fst (complete_shard one_completed morning "SHARD-001-INIT") = Ok false /\
  forall e, fst (complete_shard one_completed morning "SHARD-001-INIT") <> Raise e.
Proof.
  split; [vm_compute; apply not_elem_of_nil|].
  split; [vm_compute; reflexivity|]. intros e. vm_compute. discriminate.
Qed.

(** C1, as the code has it. [create_story_shard] searches no collection
    for the id: whenever the fields satisfy the constraints of
    [StoryShardSpec], and whether or not the id is already in the active,
    completed or archived collection, the call returns the validated shard
    and appends one record with the trimmed id to the active collection;
    the completed and archived collections and the metrics are unchanged
    and the document is saved. *)
Theorem create_story_shard_no_duplicate_check
    (self : t) (utcnow : datetime) (shard_id title description : string)
    (owner_agent : AgentRole) (priority : string)
    (dependencies : option (list string)) :
  fields_valid shard_id title description ->
  exists shard self',
    create_story_shard self utcnow shard_id title description owner_agent
      priority dependencies = (Ok shard, self') /\
    StoryShardSpec.shard_id shard = PyStr.strip shard_id /\
    ShardDocument.active_shards (active_shards self')
    = ShardDocument.active_shards (active_shards self) ++
      [ {| ShardDict.shard_id := PyStr.strip shard_id;
           ShardDict.title := PyStr.strip title;
           ShardDict.status := "pending";
           ShardDict.priority := PyStr.strip priority;
           ShardDict.owner_agent := AgentRole_value owner_agent;
           ShardDict.created_at := isoformat utcnow;
           ShardDict.dependencies := PyStr.strip <$> or_empty dependencies;
           ShardDict.completed_at := None |} ] /\
    active_ids self' = active_ids self ++ [PyStr.strip shard_id] /\
    ShardDocument.completed_shards (active_shards self')
    = ShardDocument.completed_shards (active_shards self) /\
    ShardDocument.archived_shards (active_shards self')
    = ShardDocument.archived_shards (active_shards self) /\
    ShardDocument.metrics (active_shards self')
    = ShardDocument.metrics (active_shards self) /\
    shards_file self' = Some (active_shards self').
Proof.
  intros Hvalid.
  destruct (create_story_shard_stored self utcnow shard_id title description
              owner_agent priority dependencies Hvalid)
    as (shard & self' & Hc & Hid & _ & Hact & Hcomp & Harch & Hm & Hfile & _).
  exists shard, self'. split; [done|]. split; [done|]. split; [done|].
  split; [|done]. unfold active_ids, shard_ids. rewrite Hact, fmap_app. done.
Qed.

Lemma fields_valid_sample (i : string) :
  shard_id_pattern (PyStr.strip i) = true -> fields_valid i a_title a_description.
Proof. intros H. split; [done|]. vm_compute. repeat split; lia. Qed.

Lemma create_story_shard_no_duplicate_check_witness :
  exists shard self',
    create_story_shard one_active morning' "SHARD-001-INIT" a_title a_description
      SECURITY_SENTINEL "low" None = (Ok shard, self') /\
    active_ids self' = ["SHARD-001-INIT"; "SHARD-001-INIT"].
Proof.
  destruct (create_story_shard_no_duplicate_check one_active morning'
              "SHARD-001-INIT" a_title a_description SECURITY_SENTINEL "low" None)
    as (shard & self' & H1 & _ & _ & H2 & _).
  { apply fields_valid_sample. reflexivity. }
  exists shard, self'. split; [exact H1 | exact H2].
Defined.

(** C1, as stated, fails: the id [SHARD-001-INIT] is in the active
    collection, and a second [create_story_shard] with it returns a shard
    and leaves two records with that id in the active collection. *)
Lemma create_story_shard_accepts_duplicate :
  active_ids one_active = ["SHARD-001-INIT"] /\
  exists shard,
    fst (create_story_shard one_active morning' "SHARD-001-INIT" a_title
           a_description SECURITY_SENTINEL "low" None) = Ok shard /\
    active_ids (snd (create_story_shard one_active morning' "SHARD-001-INIT"
                       a_title a_description SECURITY_SENTINEL "low" None))
    = ["SHARD-001-INIT"; "SHARD-001-INIT"].
Proof. split; [reflexivity|]. eexists. split; vm_compute; reflexivity. Qed.

(** C7. Strings are trimmed before their constraints are checked, so the
    pattern is checked on the id with its
    leading and trailing white space removed: when the trimmed id does not
    match [SHARD-\d{3}-[A-Z]+] the call raises [ValidationError] naming
    [shard_id] and leaves the orchestrator unchanged ([INVALID-ID] is such
    an id); when the trimmed id matches and the title and the description
    satisfy their length bounds, the call returns a shard whose id is the
    trimmed id ([SHARD-001-INIT] is such an id). *)
Theorem create_story_shard_id_pattern
    (self : t) (utcnow : datetime) (shard_id title description : string)
    (owner_agent : AgentRole) (priority : string)
    (dependencies : option (list string)) :
  (shard_id_pattern (PyStr.strip shard_id) = false ->
   exists fields,
     create_story_shard self utcnow shard_id title description owner_agent
       priority dependencies
     = (Raise (ValidationError ("shard_id" :: fields)), self)) /\
  (shard_id_pattern (PyStr.strip shard_id) = true ->
   (5 <= String.length (PyStr.strip title) <= 200)%nat ->
   (20 <= String.length (PyStr.strip description))%nat ->
   exists shard self',
     create_story_shard self utcnow shard_id title description owner_agent
       priority dependencies = (Ok shard, self') /\
     StoryShardSpec.shard_id shard = PyStr.strip shard_id) /\
  (exists fields,
     create_story_shard self utcnow "INVALID-ID" title description owner_agent
       priority dependencies
     = (Raise (ValidationError ("shard_id" :: fields)), self)) /\
  ((5 <= String.length (PyStr.strip title) <= 200)%nat ->
   (20 <= String.length (PyStr.strip description))%nat ->
   exists shard self',
     create_story_shard self utcnow "SHARD-001-INIT" title description
       owner_agent priority dependencies = (Ok shard, self') /\
     StoryShardSpec.shard_id shard = "SHARD-001-INIT").
Proof.
  assert (forall i,
    shard_id_pattern (PyStr.strip i) = false ->
    exists fields,
      create_story_shard self utcnow i title description owner_agent
        priority dependencies
      = (Raise (ValidationError ("shard_id" :: fields)), self)) as Hbad.
  { intros i Hid.
    destruct (shard_validate_bad_id utcnow i title description owner_agent
                priority dependencies Hid) as (fields & Hraise).
    exists fields. unfold create_story_shard. by rewrite Hraise. }
  assert (forall i,
    shard_id_pattern (PyStr.strip i) = true ->
    (5 <= String.length (PyStr.strip title) <= 200)%nat ->
    (20 <= String.length (PyStr.strip description))%nat ->
    exists shard self',
      create_story_shard self utcnow i title description owner_agent
        priority dependencies = (Ok shard, self') /\
      StoryShardSpec.shard_id shard = PyStr.strip i) as Hgood.
  { intros i Hid Hti Hde.
    destruct (create_story_shard_valid self utcnow i title description
                owner_agent priority dependencies)
      as (shard & self' & Hc & Hs & _); [done|].
    eauto. }
  split; [apply Hbad|]. split; [apply Hgood|]. split.
  - apply Hbad. reflexivity.
  - intros Hti Hde. apply (Hgood "SHARD-001-INIT"); [reflexivity | done..].
Qed.

Lemma create_story_shard_id_pattern_witness :
  (exists fields,
     create_story_shard fresh morning "shard-1-init" a_title a_description
       SECURITY_SENTINEL "low" None
     = (Raise (ValidationError ("shard_id" :: fields)), fresh)) /\
  (exists shard self',
     create_story_shard fresh morning "SHARD-042-DEPLOY" a_title a_description
       SECURITY_SENTINEL "low" None = (Ok shard, self') /\
     StoryShardSpec.shard_id shard = "SHARD-042-DEPLOY").
Proof.
  split.
  - destruct (create_story_shard_id_pattern fresh morning "shard-1-init" a_title
                a_description SECURITY_SENTINEL "low" None) as (Hbad & _).
    apply Hbad. reflexivity.
  - destruct (create_story_shard_id_pattern fresh morning "SHARD-042-DEPLOY"
                a_title a_description SECURITY_SENTINEL "low" None)
      as (_ & Hgood & _).
    apply Hgood; [reflexivity | vm_compute; lia..].
Defined.

(** C3, as the code has it. [assign_shard_to_agent] does not read the
    dependencies of a shard: whenever the first active record with the id
    has an owner that an agent of the manifest carries, the call returns
    the first such agent and sets the status of that record to
    [in_progress], whatever its dependencies are and whatever the
    completed collection holds. [create_story_shard] does not check them
    either: with valid fields it stores, trimmed, the dependencies it is
    given. *)
Theorem assign_shard_to_agent_ignores_dependencies
    (self : t) (shard_id : string) (i : nat) (shard : ShardDict.t)
    (j : nat) (agent : GuruAgent.t) :
  first_shard shard_id (ShardDocument.active_shards (active_shards self))
    i shard ->
  first_agent (ShardDict.owner_agent shard) (guru_agents self) j agent ->
  (exists self',
     assign_shard_to_agent self shard_id = (Some agent, self') /\
     ShardDocument.active_shards (active_shards self')
     = <[i := {| ShardDict.shard_id := shard_id;
                 ShardDict.title := ShardDict.title shard;
                 ShardDict.status := "in_progress";
                 ShardDict.priority := ShardDict.priority shard;
                 ShardDict.owner_agent := ShardDict.owner_agent shard;
                 ShardDict.created_at := ShardDict.created_at shard;
                 ShardDict.dependencies := ShardDict.dependencies shard;
                 ShardDict.completed_at := ShardDict.completed_at shard |}]>
         (ShardDocument.active_shards (active_shards self)) /\
     ShardDocument.completed_shards (active_shards self')
     = ShardDocument.completed_shards (active_shards self)) /\
  (forall utcnow new_id title description owner_agent priority dependencies,
      fields_valid new_id title description ->
      exists new_shard self',
        create_story_shard self utcnow new_id title description owner_agent
          priority dependencies = (Ok new_shard, self') /\
        StoryShardSpec.dependencies new_shard
        = PyStr.strip <$> or_empty dependencies /\
        ShardDocument.active_shards (active_shards self')
        = ShardDocument.active_shards (active_shards self) ++
          [ {| ShardDict.shard_id := PyStr.strip new_id;
               ShardDict.title := PyStr.strip title;
               ShardDict.status := "pending";
               ShardDict.priority := PyStr.strip priority;
               ShardDict.owner_agent := AgentRole_value owner_agent;
               ShardDict.created_at := isoformat utcnow;
               ShardDict.dependencies := PyStr.strip <$> or_empty dependencies;
               ShardDict.completed_at := None |} ]).
Proof.
  intros Hshard Hagent. pose proof Hshard as (_ & Hid & _).
  apply find_shard_first in Hshard. apply find_agent_first in Hagent. split.
  - unfold assign_shard_to_agent. rewrite Hshard, Hagent.
    eexists. split; [reflexivity|]. simpl. by rewrite <- Hid.
  - intros utcnow new_id title description owner_agent priority dependencies Hv.
    destruct (create_story_shard_stored self utcnow new_id title description
                owner_agent priority dependencies Hv)
      as (new_shard & self' & Hc & _ & Hdeps & Hact & _).
    eauto.
Qed.

Lemma assign_shard_to_agent_ignores_dependencies_witness :
  exists self',
    assign_shard_to_agent two_active "SHARD-002-BUILD"
    = (Some {| GuruAgent.name := "Security Sentinel";
              GuruAgent.role := "Security & Compliance";
              GuruAgent.status := "active" |}, self') /\
    (ShardDict.dependencies <$> ShardDocument.active_shards (active_shards self'))
    = [[]; ["SHARD-001-INIT"]] /\
    ShardDocument.completed_shards (active_shards self') = [].
Proof.
  destruct (assign_shard_to_agent_ignores_dependencies two_active
              "SHARD-002-BUILD" 1
              {| ShardDict.shard_id := "SHARD-002-BUILD";
                 ShardDict.title := a_title;
                 ShardDict.status := "pending";
                 ShardDict.priority := "medium";
                 ShardDict.owner_agent := "security_sentinel";
                 ShardDict.created_at := isoformat morning;
                 ShardDict.dependencies := ["SHARD-001-INIT"];
                 ShardDict.completed_at := None |}
              1
              {| GuruAgent.name := "Security Sentinel";
              GuruAgent.role := "Security & Compliance";
              GuruAgent.status := "active" |})
    as ((self' & Hassign & Hactive & Hcompleted) & _).
  - split; [vm_compute; reflexivity|]. split; [reflexivity|].
    intros k s Hk Hlt. destruct k as [|k]; [|lia].
    vm_compute in Hk. injection Hk as <-. discriminate.
  - split; [vm_compute; reflexivity|]. split; [reflexivity|].
    intros k a Hk Hlt. destruct k as [|k]; [|lia].
    vm_compute in Hk. injection Hk as <-. vm_compute. discriminate.
  - exists self'. split; [exact Hassign|]. rewrite Hactive, Hcompleted.
    split; vm_compute; reflexivity.
Defined.

(** C3, as stated, fails: the only dependency of [SHARD-002-BUILD] is in
    no collection, the completed collection is empty, and
    [assign_shard_to_agent] returns the owner and sets the shard
    [in_progress]. *)
Lemma assign_shard_to_agent_unmet_dependency :
  ShardDict.dependencies
    <$> ShardDocument.active_shards (active_shards one_waiting)
  = [["SHARD-001-INIT"]] /\
  ("SHARD-001-INIT" ∉ completed_ids one_waiting) /\
  exists agent,
    fst (assign_shard_to_agent one_waiting "SHARD-002-BUILD") = Some agent /\
    active_statuses (snd (assign_shard_to_agent one_waiting "SHARD-002-BUILD"))
    = [("SHARD-002-BUILD", "in_progress")].
Proof.
  split; [reflexivity|]. split; [vm_compute; apply not_elem_of_nil|].
  eexists. split; vm_compute; reflexivity.
Qed.

Section Assign.

Lemma document_eta (d : ShardDocument.t) :
  {| ShardDocument.active_shards := ShardDocument.active_shards d;
     ShardDocument.completed_shards := ShardDocument.completed_shards d;
     ShardDocument.archived_shards := ShardDocument.archived_shards d;
     ShardDocument.metrics := ShardDocument.metrics d |} = d.
Proof. by destruct d. Qed.

Lemma set_active_shards_same (self : t) :
  set_active_shards (active_shards self) self = self.
Proof. by destruct self. Qed.

(** Assigning a shard that is already in progress changes nothing in
    memory. *)
Lemma assign_in_progress self i n shard j agent :
  find_shard i (ShardDocument.active_shards (active_shards self)) = Some (n, shard) ->
  ShardDict.status shard = TaskStatus_value IN_PROGRESS ->
  find_agent (ShardDict.owner_agent shard) (guru_agents self) = Some (j, agent) ->
  assign_shard_to_agent self i = (Some agent, _save_active_shards self).
Proof.
  intros Hshard Hstatus Hagent. unfold assign_shard_to_agent.
  rewrite Hshard, Hagent, <- Hstatus, set_status_same.
  apply find_shard_Some in Hshard as (Hn & _).
  by rewrite (list_insert_id _ _ _ Hn), document_eta, set_active_shards_same.
Qed.

End Assign.

(** C8. Let the first active record with the id have status
    [in_progress] and an owner that an agent of the manifest carries.
    [assign_shard_to_agent] returns the first such agent and leaves the
    shard document as it was, so that record still has the id, the status
    [in_progress] and the same owner, and the active collection has the
    same records; the document is saved again. A second call does the
    same. *)
Theorem assign_shard_to_agent_idempotent
    (self : t) (shard_id : string) (i : nat) (shard : ShardDict.t)
    (j : nat) (agent : GuruAgent.t) :
  first_shard shard_id (ShardDocument.active_shards (active_shards self))
    i shard ->
  ShardDict.status shard = TaskStatus_value IN_PROGRESS ->
  first_agent (ShardDict.owner_agent shard) (guru_agents self) j agent ->
  let once := assign_shard_to_agent self shard_id in
  let twice := assign_shard_to_agent (snd once) shard_id in
  fst once = Some agent /\
  active_shards (snd once) = active_shards self /\
  ShardDocument.active_shards (active_shards (snd once)) !! i = Some shard /\
  active_ids (snd once) = active_ids self /\
  shards_file (snd once) = Some (active_shards self) /\
  twice = once.
Proof.
  intros Hshard%find_shard_first Hstatus Hagent%find_agent_first once twice.
  subst twice once.
  rewrite (assign_in_progress _ _ _ _ _ _ Hshard Hstatus Hagent). simpl.
  rewrite (assign_in_progress (_save_active_shards self) _ _ _ _ _
             Hshard Hstatus Hagent).
  by apply find_shard_Some in Hshard as (Hi & _).
Qed.

Lemma assign_shard_to_agent_idempotent_witness :
  fst (assign_shard_to_agent second_assigned "SHARD-002-BUILD")
  = Some {| GuruAgent.name := "Security Sentinel";
              GuruAgent.role := "Security & Compliance";
              GuruAgent.status := "active" |} /\
  active_shards (snd (assign_shard_to_agent second_assigned "SHARD-002-BUILD"))
  = active_shards second_assigned /\
  active_statuses second_assigned
  = [("SHARD-001-INIT", "pending"); ("SHARD-002-BUILD", "in_progress")].
Proof.
  destruct (assign_shard_to_agent_idempotent second_assigned "SHARD-002-BUILD" 1
              {| ShardDict.shard_id := "SHARD-002-BUILD";
                 ShardDict.title := a_title;
                 ShardDict.status := "in_progress";
                 ShardDict.priority := "medium";
                 ShardDict.owner_agent := "security_sentinel";
                 ShardDict.created_at := isoformat morning;
                 ShardDict.dependencies := ["SHARD-001-INIT"];
                 ShardDict.completed_at := None |}
              1
              {| GuruAgent.name := "Security Sentinel";
              GuruAgent.role := "Security & Compliance";
              GuruAgent.status := "active" |})
    as (Hagent & Hdoc & _).
  - split; [vm_compute; reflexivity|]. split; [reflexivity|].
    intros k s Hk Hlt. destruct k as [|k]; [|lia].
    vm_compute in Hk. injection Hk as <-. discriminate.
  - reflexivity.
  - split; [vm_compute; reflexivity|]. split; [reflexivity|].
    intros k a Hk Hlt. destruct k as [|k]; [|lia].
    vm_compute in Hk. injection Hk as <-. vm_compute. discriminate.
  - split; [exact Hagent|]. split; [exact Hdoc | reflexivity].
Defined.

(** C10. The loader gives a document without [metrics] when there is no
    shard file, and [create_story_shard] does not add one. In every such
    state [complete_shard], called with the id of an active shard, raises
    [KeyError] for the key [metrics]; the orchestrator it leaves behind
    has the first record with that id removed from the active collection
    and appended, completed, to the completed collection, and nothing was
    saved. *)
Theorem complete_shard_without_metrics :
  ShardDocument.metrics (_load_active_shards None) = None /\
  (forall self utcnow i ti de ow pr deps,
      ShardDocument.metrics (active_shards self) = None ->
      ShardDocument.metrics
        (active_shards (snd (create_story_shard self utcnow i ti de ow pr deps)))
      = None) /\
  (forall self now shard_id,
      ShardDocument.metrics (active_shards self) = None ->
      shard_id ∈ active_ids self ->
      exists i shard,
        first_shard shard_id (ShardDocument.active_shards (active_shards self))
          i shard /\
        let after := snd (complete_shard self now shard_id) in
        fst (complete_shard self now shard_id) = Raise (KeyError "metrics") /\
        ShardDocument.active_shards (active_shards after)
        = delete i (ShardDocument.active_shards (active_shards self)) /\
        ShardDocument.completed_shards (active_shards after)
        = ShardDocument.completed_shards (active_shards self)
          ++ [ {| ShardDict.shard_id := shard_id;
                  ShardDict.title := ShardDict.title shard;
                  ShardDict.status := "completed";
                  ShardDict.priority := ShardDict.priority shard;
                  ShardDict.owner_agent := ShardDict.owner_agent shard;
                  ShardDict.created_at := ShardDict.created_at shard;
                  ShardDict.dependencies := ShardDict.dependencies shard;
                  ShardDict.completed_at := Some (isoformat now) |} ] /\
        active_shards after <> active_shards self /\
        shards_file after = shards_file self).
Proof.
  split; [reflexivity|]. split.
  - intros self utcnow i ti de ow pr deps Hm.
    destruct (create_story_shard_cases self utcnow i ti de ow pr deps)
      as [(fields & ->) | (shard & self' & -> & _ & _ & _ & _ & Hm' & _)];
      [done | simpl; congruence].
  - intros self now shard_id Hm Hin.
    destruct (find_shard shard_id
                (ShardDocument.active_shards (active_shards self)))
      as [[i shard]|] eqn:Hshard;
      [|by apply find_shard_None in Hshard].
    exists i, shard. split; [by apply find_shard_first|].
    unfold complete_shard. rewrite Hshard, Hm. simpl.
    apply find_shard_Some in Hshard as (_ & <- & _).
    repeat split. intros Heq.
    apply (f_equal (fun d => length (ShardDocument.completed_shards d))) in Heq.
    simpl in Heq. rewrite length_app in Heq. simpl in Heq. lia.
Qed.

Lemma complete_shard_without_metrics_witness :
  fst (complete_shard second_assigned_uncounted morning' "SHARD-002-BUILD")
  = Raise (KeyError "metrics") /\
  active_ids (snd (complete_shard second_assigned_uncounted morning'
                     "SHARD-002-BUILD")) = ["SHARD-001-INIT"] /\
  completed_ids (snd (complete_shard second_assigned_uncounted morning'
                        "SHARD-002-BUILD")) = ["SHARD-002-BUILD"].
Proof.
  destruct complete_shard_without_metrics as (_ & _ & H).
  destruct (H second_assigned_uncounted morning' "SHARD-002-BUILD")
    as (i & shard & Hfirst & Hraise & Hactive & Hcompleted & _).
  - reflexivity.
  - vm_compute. apply list_elem_of_further, list_elem_of_here.
  - split; [exact Hraise|]. unfold active_ids, completed_ids.
    rewrite Hactive, Hcompleted.
    assert (i = 1%nat) as ->.
    { destruct Hfirst as (Hi & Hid & _).
      destruct i as [|[|i]]; [|done|].
      - vm_compute in Hi. injection Hi as <-. discriminate Hid.
      - vm_compute in Hi. discriminate Hi. }
    split; reflexivity.
Defined.

Section Membership.

(** [Assign] changes no id of any collection. *)
Lemma assign_ids (self : t) (i : string) :
  let after := snd (assign_shard_to_agent self i) in
  active_ids after = active_ids self /\
  completed_ids after = completed_ids self /\
  archived_ids after = archived_ids self.
Proof.
  unfold assign_shard_to_agent.
  destruct (find_shard i _) as [[n s]|] eqn:Hs; [|done].
  destruct (find_agent _ _) as [[j a]|]; [|done].
  simpl. unfold active_ids, completed_ids, archived_ids. simpl.
  apply find_shard_Some in Hs as (Hn & _).
  by rewrite (shard_ids_insert _ _ _ _ Hn).
Qed.

(** [Complete] either changes nothing, or moves the id from the active to
    the completed collection, whether it returns or raises. *)
Lemma complete_ids (self : t) (now : datetime) (i : string) :
  let after := snd (complete_shard self now i) in
  archived_ids after = archived_ids self /\
  (((i ∉ active_ids self) /\ after = self) \/
   (exists n, active_ids self !! n = Some i /\
              active_ids after = delete n (active_ids self) /\
              completed_ids after = completed_ids self ++ [i])).
Proof.
  unfold complete_shard.
  destruct (find_shard i _) as [[n s]|] eqn:Hs.
  - apply find_shard_Some in Hs as (Hn & Hid & Hin).
    assert (forall m,
      shard_ids (ShardDocument.completed_shards (active_shards self)
                 ++ [ShardDict.set_completed_at m
                       (ShardDict.set_status (TaskStatus_value COMPLETED) s)])
      = completed_ids self ++ [i]) as Hc.
    { intros m. unfold completed_ids, shard_ids. rewrite fmap_app. simpl.
      by rewrite Hid. }
    destruct (ShardDocument.metrics _) as [m|]; [destruct (m !! _)|];
      (split; [done|]; right; exists n; split; [done|]; split; [|apply Hc];
       unfold active_ids, shard_ids; simpl; apply list_fmap_delete).
  - split; [done|]. left. split; [|done]. by apply find_shard_None.
Qed.

(** [Create] either changes nothing, or appends the trimmed id to the
    active collection. *)
Lemma create_ids (self : t) utcnow i ti de ow pr deps :
  let after := snd (create_story_shard self utcnow i ti de ow pr deps) in
  completed_ids after = completed_ids self /\
  archived_ids after = archived_ids self /\
  (after = self \/ active_ids after = active_ids self ++ [PyStr.strip i]).
Proof.
  destruct (create_story_shard_cases self utcnow i ti de ow pr deps)
    as [(fields & ->) | (shard & self' & -> & Hid & Ha & Hc & Hr & _)]; simpl.
  - auto.
  - unfold completed_ids, archived_ids, active_ids. rewrite Hc, Hr, Ha.
    split; [done|]. split; [done|]. right.
    unfold shard_ids. rewrite fmap_app. simpl. by rewrite Hid.
Qed.

Lemma moved_ids_Permutation (A C R : list string) n (i : string) :
  A !! n = Some i ->
  delete n A ++ (C ++ [i]) ++ R ≡ₚ A ++ C ++ R.
Proof.
  intros Hn. rewrite (delete_Permutation A n i Hn) at 2.
  rewrite <- !app_assoc. simpl.
  rewrite (Permutation_app_comm C (i :: R)). simpl.
  rewrite <- Permutation_middle. apply perm_skip.
  apply Permutation_app_head, Permutation_app_comm.
Qed.

Lemma step_ids_disjoint (self : t) (o : op) :
  ids_disjoint self -> creates_fresh self [o] -> ids_disjoint (step self o).
Proof.
  unfold ids_disjoint, all_ids. intros Hinv [Hfresh _].
  destruct o as [utcnow i ti de ow pr deps | i | now i]; simpl.
  - destruct (create_ids self utcnow i ti de ow pr deps) as (-> & -> & [-> | ->]);
      [done|].
    rewrite <- app_assoc. simpl. rewrite <- Permutation_middle.
    apply NoDup_cons. split; [exact Hfresh | exact Hinv].
  - by destruct (assign_ids self i) as (-> & -> & ->).
  - destruct (complete_ids self now i)
      as (-> & [(_ & ->) | (n & Hn & -> & ->)]); [done|].
    by rewrite (moved_ids_Permutation _ _ _ _ _ Hn).
Qed.

Lemma run_ids_disjoint (ops : list op) (self : t) :
  ids_disjoint self -> creates_fresh self ops -> ids_disjoint (run self ops).
Proof.
  revert self. induction ops as [|o ops IH]; intros self Hinv Hfresh; [done|].
  destruct Hfresh as [Ho Hrest]. simpl. apply IH; [|done].
  apply step_ids_disjoint; [done|]. by split.
Qed.

End Membership.

(** C2, as the code has it. Let every shard id occur once over the three
    collections. [assign_shard_to_agent] changes no id of any collection;
    [complete_shard] either changes nothing or moves the given id from the
    active collection to the end of the completed one, after which it is no
    longer active; [create_story_shard] either changes nothing or appends
    the trimmed id to the active collection. Every run of these operations
    in which each [Create] is given an id that is in no collection keeps
    every id in one collection; [create_story_shard] itself does not check
    that. *)
Theorem lifecycle_keeps_ids_disjoint (self : t) :
  ids_disjoint self ->
  (forall ops, creates_fresh self ops -> ids_disjoint (run self ops)) /\
  (forall shard_id,
      let after := step self (Assign shard_id) in
      active_ids after = active_ids self /\
      completed_ids after = completed_ids self /\
      archived_ids after = archived_ids self) /\
  (forall now shard_id,
      let after := step self (Complete now shard_id) in
      archived_ids after = archived_ids self /\
      (((shard_id ∉ active_ids self) /\ after = self) \/
       (exists n, active_ids self !! n = Some shard_id /\
                  active_ids after = delete n (active_ids self) /\
                  completed_ids after = completed_ids self ++ [shard_id] /\
                  shard_id ∉ active_ids after))) /\
  (forall utcnow shard_id title description owner_agent priority dependencies,
      let after :=
        step self (Create utcnow shard_id title description owner_agent
                     priority dependencies) in
      completed_ids after = completed_ids self /\
      archived_ids after = archived_ids self /\
      (after = self \/
       active_ids after = active_ids self ++ [PyStr.strip shard_id])).
Proof.
  intros Hinv. split; [|split; [|split]].
  - intros ops. by apply run_ids_disjoint.
  - intros shard_id. apply assign_ids.
  - intros now shard_id after.
    assert (ids_disjoint after) as Hafter.
    { apply (step_ids_disjoint self (Complete now shard_id)); [done|].
      by split. }
    subst after. simpl in *.
    destruct (complete_ids self now shard_id)
      as (Hr & [(Hnot & Heq) | (n & Hn & Ha & Hc)]); (split; [done|]).
    + by left.
    + right. exists n. repeat split; [done..|].
      unfold ids_disjoint, all_ids in Hafter. rewrite Hc in Hafter.
      apply NoDup_app in Hafter as (_ & Hsep & _).
      intros Hin. apply (Hsep _ Hin).
      apply elem_of_app. left. apply elem_of_app. right.
      apply list_elem_of_here.
  - intros utcnow shard_id title description owner_agent priority dependencies.
    apply create_ids.
Qed.

Lemma lifecycle_keeps_ids_disjoint_witness :
  ids_disjoint (run counted two_shards).
Proof.
  apply (lifecycle_keeps_ids_disjoint counted).
  - vm_compute. apply NoDup_nil_2.
  - repeat split.
    + apply not_elem_of_nil.
    + vm_compute. intros Hin. apply list_elem_of_singleton in Hin. discriminate.
Defined.

(** C2, as stated, fails: started on empty collections, creating
    [SHARD-001-INIT], completing it and creating it again are three calls
    that return normally, and they leave that id both in the active and in
    the completed collection. *)
Lemma create_after_complete_breaks_disjointness :
  ids_disjoint counted /\
  fst (complete_shard one_active morning' "SHARD-001-INIT") = Ok true /\
  active_ids (run counted create_complete_create) = ["SHARD-001-INIT"] /\
  completed_ids (run counted create_complete_create) = ["SHARD-001-INIT"] /\
  ~ ids_disjoint (run counted create_complete_create).
Proof.
  split; [vm_compute; apply NoDup_nil_2|].
  split; [vm_compute; reflexivity|].
  split; [reflexivity|]. split; [reflexivity|].
  unfold ids_disjoint. vm_compute.
  intros H. apply NoDup_cons in H as [H _]. apply H. left.
Qed.

Section Journal.

(** A call that passes validation returns the validated entry and writes
    its text under the name made of the time stamp and the lower-cased
    task id; every other file is untouched, and a file that already has
    that name is replaced. *)
Lemma create_journal_entry_writes self utcnow now task_id guru_agent
    logic_summary sub_agents artifacts status entry self' :
  create_journal_entry self utcnow now task_id guru_agent logic_summary
    sub_agents artifacts status = (Ok entry, self') ->
  journal self' !! journal_filename now task_id = Some (journal_content entry) /\
  (forall name, name <> journal_filename now task_id ->
                journal self' !! name = journal self !! name) /\
  active_shards self' = active_shards self.
Proof.
  unfold create_journal_entry.
  destruct (AgenticJournalEntry.validate _) as [e|e]; [|done].
  destruct (open_for_writing _); [done|].
  intros [= <- <-]. simpl. split; [apply lookup_insert_eq|].
  split; [|done]. intros name Hne. by apply lookup_insert_ne.
Qed.

Lemma journal_filename_second (t1 t2 : datetime) (task_id : string) :
  year t1 = year t2 -> month t1 = month t2 -> day t1 = day t2 ->
  hour t1 = hour t2 -> minute t1 = minute t2 -> second t1 = second t2 ->
  journal_filename t1 task_id = journal_filename t2 task_id.
Proof.
  unfold journal_filename, strftime_stamp. by intros -> -> -> -> -> ->.
Qed.

End Journal.

(** C9, where the code departs from it. Two calls of
    [create_journal_entry] for the task [SHARD-006-WORKFLOW] at two
    instants of the same second both return their validated entry, and
    both write the file [2026-01-13-090507-shard-006-workflow.md]: after
    the second call the journal holds one file, with the text of the
    second entry, and the text of the first entry is gone. *)
Theorem create_journal_entry_same_second_overwrites :
  morning <> morning' /\
  exists entry1 entry2,
    fst (first_record fresh) = Ok entry1 /\
    fst (second_record (snd (first_record fresh))) = Ok entry2 /\
    journal_content entry1 <> journal_content entry2 /\
    journal (snd (first_record fresh))
      !! "2026-01-13-090507-shard-006-workflow.md"
    = Some (journal_content entry1) /\
    map_to_list (journal (snd (second_record (snd (first_record fresh)))))
    = [("2026-01-13-090507-shard-006-workflow.md", journal_content entry2)].
Proof.
  split; [discriminate|]. eexists _, _.
  split; [vm_compute; reflexivity|]. split; [vm_compute; reflexivity|].
  split; [|split].
  - apply String.eqb_neq. vm_compute. reflexivity.
  - vm_compute. reflexivity.
  - vm_compute. reflexivity.
Qed.

(** ** Further properties of the orchestrator and the schemas *)

Import Reporting Records Text Clock.

Section Queries.

Lemma filter_two_lengths {A} (P Q : A -> Prop)
    `{!forall x, Decision (P x)} `{!forall x, Decision (Q x)} (l : list A) :
  (forall x, P x -> Q x -> False) ->
  (length (filter P l) + length (filter Q l) <= length l)%nat.
Proof.
  intros Hdisj. induction l as [|x l IH]; [done|].
  rewrite !filter_cons.
  destruct (decide (P x)) as [HP|], (decide (Q x)) as [HQ|]; simpl; try lia.
  destruct (Hdisj x HP HQ).
Qed.

End Queries.

(** X1. [list_guru_agents] returns the whole list of the manifest when no
    status is given and also when the status is the empty string; for any
    other status it returns, in the order of the manifest, exactly the
    agents with that status. *)
Theorem list_guru_agents_filter (self : t) (status : option string) :
  (status = None \/ status = Some "" ->
   list_guru_agents self status = guru_agents self) /\
  (forall s, status = Some s -> s <> "" ->
     list_guru_agents self status `sublist_of` guru_agents self /\
     forall a, a ∈ list_guru_agents self status <->
               a ∈ guru_agents self /\ GuruAgent.status a = s).
Proof.
  unfold list_guru_agents. split.
  - by intros [-> | ->].
  - intros s -> Hs. apply truthy_true in Hs. simpl. rewrite Hs. split.
    + apply sublist_filter.
    + intros a. rewrite list_elem_of_filter.
      split; [intros [[= <-] Hin] | intros [Hin <-]]; done.
Qed.

Lemma list_guru_agents_filter_witness :
  list_guru_agents counted (Some "") = guru_agents counted /\
  forall a, a ∈ list_guru_agents counted (Some "active") <->
            a ∈ guru_agents counted /\ GuruAgent.status a = "active".
Proof.
  split.
  - destruct (list_guru_agents_filter counted (Some "")) as [Hall _].
    apply Hall. by right.
  - destruct (list_guru_agents_filter counted (Some "active")) as [_ Hsome].
    apply (Hsome "active"); [reflexivity | discriminate].
Defined.

Section Complete.

Lemma find_shard_elem (i : string) (l : list ShardDict.t) :
  is_Some (find_shard i l) <-> i ∈ shard_ids l.
Proof.
  destruct (find_shard i l) as [p|] eqn:E.
  - split; [intros _ | eauto]. destruct p as [n s].
    apply find_shard_Some in E as (_ & _ & Hn). by eapply list_elem_of_lookup_2.
  - split; [by intros [? ?]|]. intros Hin. by apply find_shard_None in E.
Qed.

End Complete.

(** X2. When the shard is in the active collection and the document has a
    [total_completed] counter, [complete_shard] returns [True]: the first
    record with that id leaves the active collection and is appended to
    the completed one with status [completed] and the completion time,
    all its other fields kept; the counter grows by one and no other
    metric changes; the archived collection and the journal are untouched
    and the new document is saved. *)
Theorem complete_shard_success
    (self : t) (now : datetime) (shard_id : string) (i : nat)
    (shard : ShardDict.t) (m : gmap string Z) (n : Z) :
  find_shard shard_id (ShardDocument.active_shards (active_shards self))
  = Some (i, shard) ->
  ShardDocument.metrics (active_shards self) = Some m ->
  m !! "total_completed" = Some n ->
  let after := snd (complete_shard self now shard_id) in
  let moved :=
    {| ShardDict.shard_id := shard_id;
       ShardDict.title := ShardDict.title shard;
       ShardDict.status := "completed";
       ShardDict.priority := ShardDict.priority shard;
       ShardDict.owner_agent := ShardDict.owner_agent shard;
       ShardDict.created_at := ShardDict.created_at shard;
       ShardDict.dependencies := ShardDict.dependencies shard;
       ShardDict.completed_at := Some (isoformat now) |} in
  fst (complete_shard self now shard_id) = Ok true /\
  ShardDocument.active_shards (active_shards after)
  = delete i (ShardDocument.active_shards (active_shards self)) /\
  ShardDocument.completed_shards (active_shards after)
  = ShardDocument.completed_shards (active_shards self) ++ [moved] /\
  ShardDocument.archived_shards (active_shards after)
  = ShardDocument.archived_shards (active_shards self) /\
  total_completed after = Some (n + 1) /\
  (forall k v, k <> "total_completed" ->
     (ShardDocument.metrics (active_shards after) ≫= (.!! k)) = Some v <->
     m !! k = Some v) /\
  journal after = journal self /\
  shards_file after = Some (active_shards after).
Proof.
  intros Hshard Hm Hn after moved. subst after moved.
  unfold complete_shard, total_completed. rewrite Hshard, Hm, Hn. simpl.
  apply find_shard_Some in Hshard as (_ & <- & _).
  split; [done|]. split; [done|]. split; [done|]. split; [done|].
  split; [by rewrite lookup_insert_eq|]. split; [|done].
  intros k v Hk. by rewrite lookup_insert_ne.
Qed.

Lemma complete_shard_success_witness :
  fst (complete_shard one_active morning' "SHARD-001-INIT") = Ok true /\
  total_completed (snd (complete_shard one_active morning' "SHARD-001-INIT"))
  = Some 1.
Proof.
  destruct (complete_shard_success one_active morning' "SHARD-001-INIT" 0%nat
              {| ShardDict.shard_id := "SHARD-001-INIT";
                 ShardDict.title := a_title;
                 ShardDict.status := "pending";
                 ShardDict.priority := "high";
                 ShardDict.owner_agent := "architectural_sovereign";
                 ShardDict.created_at := isoformat morning;
                 ShardDict.dependencies := [];
                 ShardDict.completed_at := None |}
              {[ "total_completed" := 0 ]} 0)
    as (Hret & _ & _ & _ & Hcount & _).
  - vm_compute. reflexivity.
  - reflexivity.
  - reflexivity.
  - split; [exact Hret | exact Hcount].
Defined.

(** X3. The three outcomes of [complete_shard] are decided by two facts:
    it returns [False] exactly when the id is not in the active
    collection, returns [True] exactly when the id is active and the
    document has a [total_completed] counter, and raises exactly when the
    id is active and the counter is missing; what it then raises is
    [KeyError], for [metrics] or for [total_completed]. *)
Theorem complete_shard_outcomes (self : t) (now : datetime) (shard_id : string) :
  (fst (complete_shard self now shard_id) = Ok false <->
   shard_id ∉ active_ids self) /\
  (fst (complete_shard self now shard_id) = Ok true <->
   shard_id ∈ active_ids self /\ is_Some (total_completed self)) /\
  (forall e, fst (complete_shard self now shard_id) = Raise e ->
     shard_id ∈ active_ids self /\ total_completed self = None /\
     (e = KeyError "metrics" \/ e = KeyError "total_completed")) /\
  (shard_id ∈ active_ids self -> total_completed self = None ->
   exists e, fst (complete_shard self now shard_id) = Raise e).
Proof.
  unfold complete_shard, total_completed, active_ids.
  destruct (find_shard shard_id _) as [[n s]|] eqn:Hfind; simpl.
  - assert (shard_id ∈ shard_ids (ShardDocument.active_shards (active_shards self)))
      as Hin by (apply find_shard_elem; rewrite Hfind; eauto).
    destruct (ShardDocument.metrics _) as [m|]; simpl;
      [destruct (m !! "total_completed") as [c|]|]; simpl;
      repeat split; intros;
      repeat match goal with
        | H : is_Some None |- _ => destruct H as [? [=]]
        | H : _ /\ _ |- _ => destruct H
        end;
      simplify_eq/=; eauto;
      match goal with H : _ ∉ _ |- _ => destruct (H Hin) end.
  - apply find_shard_None in Hfind.
    repeat split; intros;
      repeat match goal with H : _ /\ _ |- _ => destruct H end;
      simplify_eq/=; eauto; done.
Qed.

Lemma complete_shard_outcomes_witness :
  fst (complete_shard one_completed morning "SHARD-001-INIT") = Ok false /\
  exists e, fst (complete_shard one_assigned morning "SHARD-001-INIT") = Raise e.
Proof.
  split.
  - destruct (complete_shard_outcomes one_completed morning "SHARD-001-INIT")
      as ([_ Hfalse] & _).
    apply Hfalse. vm_compute. apply not_elem_of_nil.
  - destruct (complete_shard_outcomes one_assigned morning "SHARD-001-INIT")
      as (_ & _ & _ & Hraise).
    apply Hraise; [vm_compute; apply list_elem_of_here | reflexivity].
Defined.

(** X4. [assign_shard_to_agent] returns an agent exactly when the id is in
    the active collection and the owner of the first record with that id
    is carried by an agent of the manifest; the agent returned is then the
    first agent of the manifest whose name, lower-cased and with
    underscores for spaces, is that owner. When it returns [None] the
    orchestrator is unchanged and nothing is saved. *)
Theorem assign_shard_to_agent_result (self : t) (shard_id : string) :
  (fst (assign_shard_to_agent self shard_id) = None ->
   snd (assign_shard_to_agent self shard_id) = self) /\
  (forall agent,
     fst (assign_shard_to_agent self shard_id) = Some agent <->
     exists i shard j,
       first_shard shard_id (ShardDocument.active_shards (active_shards self))
         i shard /\
       first_agent (ShardDict.owner_agent shard) (guru_agents self) j agent) /\
  (fst (assign_shard_to_agent self shard_id) = None <->
   shard_id ∉ active_ids self \/
   exists i shard,
     first_shard shard_id (ShardDocument.active_shards (active_shards self))
       i shard /\
     forall agent,
       agent ∈ guru_agents self ->
       PyStr.replace " " "_" (PyStr.lower (GuruAgent.name agent))
       <> ShardDict.owner_agent shard).
Proof.
  unfold assign_shard_to_agent.
  destruct (find_shard shard_id _) as [[i shard]|] eqn:Hshard; simpl.
  - pose proof (proj1 (find_shard_first _ _ _ _) Hshard) as Hfirst.
    assert (shard_id ∈ active_ids self) as Hin.
    { apply find_shard_Some in Hshard as (_ & _ & Hi).
      by eapply list_elem_of_lookup_2. }
    destruct (find_agent _ _) as [[j agent]|] eqn:Hagent; simpl.
    + pose proof (proj1 (find_agent_first _ _ _ _) Hagent) as Hfa.
      split; [done|]. split.
      * intros a. split; [intros [= <-]; eauto|].
        intros (i' & shard' & j' & Hs'%find_shard_first & Ha'%find_agent_first).
        rewrite Hshard in Hs'. injection Hs' as <- <-.
        rewrite Hagent in Ha'. by injection Ha' as _ ->.
      * split; [done|]. intros [Hout | (i' & shard' & Hs'%find_shard_first & Hno)].
        -- by destruct Hout.
        -- rewrite Hshard in Hs'. injection Hs' as <- <-.
           destruct Hfa as (Hj & Hname & _).
           destruct (Hno agent); [by eapply list_elem_of_lookup_2 | done].
    + split; [done|]. split.
      * intros a. split; [done|].
        intros (i' & shard' & j' & Hs'%find_shard_first & Ha'%find_agent_first).
        rewrite Hshard in Hs'. injection Hs' as <- <-. by rewrite Hagent in Ha'.
      * split; [intros _|done]. right. exists i, shard. split; [done|].
        unfold find_agent in Hagent. rewrite list_find_None, Forall_forall in Hagent.
        done.
  - apply find_shard_None in Hshard. split; [done|]. split.
    + intros a. split; [done|].
      intros (i' & shard' & j' & (Hi' & Hid' & _) & _).
      destruct Hshard. unfold active_ids, shard_ids.
      rewrite <- Hid'. apply list_elem_of_fmap_2. by eapply list_elem_of_lookup_2.
    + split; [by left | done].
Qed.

Lemma assign_shard_to_agent_result_witness :
  fst (assign_shard_to_agent two_active "SHARD-002-BUILD")
  = Some {| GuruAgent.name := "Security Sentinel";
              GuruAgent.role := "Security & Compliance";
              GuruAgent.status := "active" |} /\
  snd (assign_shard_to_agent one_completed "SHARD-001-INIT") = one_completed.
Proof.
  split.
  - destruct (assign_shard_to_agent_result two_active "SHARD-002-BUILD")
      as (_ & Hsome & _).
    apply Hsome.
    exists 1%nat,
      {| ShardDict.shard_id := "SHARD-002-BUILD";
         ShardDict.title := a_title;
         ShardDict.status := "pending";
         ShardDict.priority := "medium";
         ShardDict.owner_agent := "security_sentinel";
         ShardDict.created_at := isoformat morning;
         ShardDict.dependencies := ["SHARD-001-INIT"];
         ShardDict.completed_at := None |}, 1%nat.
    split.
    + split; [vm_compute; reflexivity|]. split; [reflexivity|].
      intros k s Hk Hlt. destruct k as [|k]; [|lia].
      vm_compute in Hk. injection Hk as <-. discriminate.
    + split; [vm_compute; reflexivity|]. split; [reflexivity|].
      intros k a Hk Hlt. destruct k as [|k]; [|lia].
      vm_compute in Hk. injection Hk as <-. vm_compute. discriminate.
  - destruct (assign_shard_to_agent_result one_completed "SHARD-001-INIT")
      as (Hnone & _).
    apply Hnone. vm_compute. reflexivity.
Defined.

(** X5. A successful [assign_shard_to_agent] changes one field of one
    record: the status of the first active record with the id becomes
    [in_progress]; every other field of that record, every other active
    record, the length of the active collection, the completed and
    archived collections, the metrics, the manifest and the journal are
    unchanged, and the document is saved. *)
Theorem assign_shard_to_agent_frame
    (self : t) (shard_id : string) (agent : GuruAgent.t) :
  fst (assign_shard_to_agent self shard_id) = Some agent ->
  let after := snd (assign_shard_to_agent self shard_id) in
  exists i shard,
    find_shard shard_id (ShardDocument.active_shards (active_shards self))
    = Some (i, shard) /\
    ShardDocument.active_shards (active_shards after) !! i
    = Some {| ShardDict.shard_id := shard_id;
              ShardDict.title := ShardDict.title shard;
              ShardDict.status := "in_progress";
              ShardDict.priority := ShardDict.priority shard;
              ShardDict.owner_agent := ShardDict.owner_agent shard;
              ShardDict.created_at := ShardDict.created_at shard;
              ShardDict.dependencies := ShardDict.dependencies shard;
              ShardDict.completed_at := ShardDict.completed_at shard |} /\
    (forall j, j <> i ->
       ShardDocument.active_shards (active_shards after) !! j
       = ShardDocument.active_shards (active_shards self) !! j) /\
    length (ShardDocument.active_shards (active_shards after))
    = length (ShardDocument.active_shards (active_shards self)) /\
    ShardDocument.completed_shards (active_shards after)
    = ShardDocument.completed_shards (active_shards self) /\
    ShardDocument.archived_shards (active_shards after)
    = ShardDocument.archived_shards (active_shards self) /\
    ShardDocument.metrics (active_shards after)
    = ShardDocument.metrics (active_shards self) /\
    guru_agents after = guru_agents self /\
    journal after = journal self /\
    shards_file after = Some (active_shards after).
Proof.
  unfold assign_shard_to_agent.
  destruct (find_shard shard_id _) as [[i shard]|] eqn:Hshard; [|done].
  destruct (find_agent _ _) as [[j a]|]; [|done]. simpl. intros _.
  exists i, shard. split; [done|].
  apply find_shard_Some in Hshard as (Hi & <- & _).
  split; [apply list_lookup_insert_eq; by eapply lookup_lt_Some|].
  split; [intros k Hk; by apply list_lookup_insert_ne|].
  split; [apply length_insert|]. done.
Qed.

Lemma assign_shard_to_agent_frame_witness :
  exists i shard,
    find_shard "SHARD-002-BUILD"
      (ShardDocument.active_shards (active_shards one_waiting)) = Some (i, shard) /\
    length (ShardDocument.active_shards
              (active_shards (snd (assign_shard_to_agent one_waiting "SHARD-002-BUILD"))))
    = length (ShardDocument.active_shards (active_shards one_waiting)).
Proof.
  destruct (assign_shard_to_agent_frame one_waiting "SHARD-002-BUILD"
              {| GuruAgent.name := "Architectural Sovereign";
                 GuruAgent.role := "System Design & Pattern Governance";
                 GuruAgent.status := "active" |})
    as (i & shard & Hfind & _ & _ & Hlen & _).
  - vm_compute. reflexivity.
  - exists i, shard. split; [exact Hfind | exact Hlen].
Defined.

(** X6. [create_story_shard] reports every violated field at once, in the
    order [shard_id], [title], [description], and then changes nothing;
    the complexity it passes, 5, is never rejected. When no field is
    violated it returns a shard. *)
Theorem create_story_shard_reports_all_fields
    (self : t) (utcnow : datetime) (shard_id title description : string)
    (owner_agent : AgentRole) (priority : string)
    (dependencies : option (list string)) :
  let bad :=
    (if shard_id_pattern (PyStr.strip shard_id) then [] else ["shard_id"]) ++
    (if (5 <=? String.length (PyStr.strip title))%nat &&
        (String.length (PyStr.strip title) <=? 200)%nat
     then [] else ["title"]) ++
    (if (20 <=? String.length (PyStr.strip description))%nat
     then [] else ["description"]) in
  (bad = [] ->
   exists shard self',
     create_story_shard self utcnow shard_id title description owner_agent
       priority dependencies = (Ok shard, self')) /\
  (bad <> [] ->
   create_story_shard self utcnow shard_id title description owner_agent
     priority dependencies = (Raise (ValidationError bad), self)).
Proof.
  unfold create_story_shard, StoryShardSpec.validate, shard_request, str_field,
    int_field.
  cbn [StoryShardSpec.shard_id StoryShardSpec.title StoryShardSpec.description
       StoryShardSpec.estimated_complexity check_opt].
  destruct (shard_id_pattern _),
    (5 <=? String.length (PyStr.strip title))%nat,
    (String.length (PyStr.strip title) <=? 200)%nat,
    (20 <=? String.length (PyStr.strip description))%nat; simpl;
    split; intros; try done; eauto.
Qed.

Lemma create_story_shard_reports_all_fields_witness :
  create_story_shard one_active morning "bad id" "Hey" "Too short"
    SECURITY_SENTINEL "low" None
  = (Raise (ValidationError ["shard_id"; "title"; "description"]), one_active).
Proof.
  destruct (create_story_shard_reports_all_fields one_active morning "bad id"
              "Hey" "Too short" SECURITY_SENTINEL "low" None) as (_ & Hbad).
  apply Hbad. discriminate.
Defined.

(** X7. A [StoryShardSpec] that passed validation satisfies every declared
    constraint: its id matches the pattern, the title has 5 to 200
    characters, the description at least 20, and the complexity lies
    between 1 and 10; its strings are the trimmed inputs, and owner,
    status and creation time are the ones given. Complexities 0 and 11 are
    rejected with [estimated_complexity] among the reported fields. *)
Theorem StoryShardSpec_validate_sound (raw shard : StoryShardSpec.t) :
  (StoryShardSpec.validate raw = Ok shard ->
   shard_id_pattern (StoryShardSpec.shard_id shard) = true /\
   (5 <= String.length (StoryShardSpec.title shard) <= 200)%nat /\
   (20 <= String.length (StoryShardSpec.description shard))%nat /\
   1 <= StoryShardSpec.estimated_complexity shard <= 10 /\
   StoryShardSpec.shard_id shard = PyStr.strip (StoryShardSpec.shard_id raw) /\
   StoryShardSpec.title shard = PyStr.strip (StoryShardSpec.title raw) /\
   StoryShardSpec.description shard = PyStr.strip (StoryShardSpec.description raw) /\
   StoryShardSpec.estimated_complexity shard = StoryShardSpec.estimated_complexity raw /\
   StoryShardSpec.owner_agent shard = StoryShardSpec.owner_agent raw /\
   StoryShardSpec.status shard = StoryShardSpec.status raw /\
   StoryShardSpec.created_at shard = StoryShardSpec.created_at raw) /\
  (StoryShardSpec.estimated_complexity raw < 1 \/
   10 < StoryShardSpec.estimated_complexity raw ->
   exists fields,
     StoryShardSpec.validate raw = Raise (ValidationError fields) /\
     "estimated_complexity" ∈ fields).
Proof.
  unfold StoryShardSpec.validate, str_field, int_field. cbn [check_opt].
  set (sid := PyStr.strip (StoryShardSpec.shard_id raw)).
  set (ti := PyStr.strip (StoryShardSpec.title raw)).
  set (de := PyStr.strip (StoryShardSpec.description raw)).
  set (ec := StoryShardSpec.estimated_complexity raw).
  split.
  - destruct (shard_id_pattern sid) eqn:Hid,
      (5 <=? String.length ti)%nat eqn:H5,
      (String.length ti <=? 200)%nat eqn:H200,
      (20 <=? String.length de)%nat eqn:H20,
      (1 <=? ec) eqn:H1, (ec <=? 10) eqn:H10; simpl; try done.
    intros [= <-]. simpl.
    apply Nat.leb_le in H5, H200, H20. apply Z.leb_le in H1, H10.
    repeat split; done.
  - intros Hout.
    assert ((1 <=? ec) && (ec <=? 10) = false) as ->.
    { apply andb_false_iff. rewrite !Z.leb_gt. lia. }
    destruct (shard_id_pattern sid), (5 <=? String.length ti)%nat,
      (String.length ti <=? 200)%nat, (20 <=? String.length de)%nat; simpl;
      (eexists; split; [reflexivity|]);
      repeat first [apply list_elem_of_here | apply list_elem_of_further].
Qed.

Lemma StoryShardSpec_validate_sound_witness :
  exists fields,
    StoryShardSpec.validate
      {| StoryShardSpec.shard_id := "SHARD-001-INIT";
         StoryShardSpec.title := a_title;
         StoryShardSpec.description := a_description;
         StoryShardSpec.owner_agent := DEVOPS_AUTOMATOR;
         StoryShardSpec.contributing_agents := [];
         StoryShardSpec.priority := "low";
         StoryShardSpec.status := PENDING;
         StoryShardSpec.dependencies := [];
         StoryShardSpec.estimated_complexity := 11;
         StoryShardSpec.acceptance_criteria := [];
         StoryShardSpec.created_at := morning;
         StoryShardSpec.target_completion := None |}
    = Raise (ValidationError fields) /\
    "estimated_complexity" ∈ fields.
Proof.
  match goal with
  | |- context [StoryShardSpec.validate ?r] =>
      destruct (StoryShardSpec_validate_sound r r) as (_ & Hout)
  end.
  apply Hout. right. simpl. lia.
Defined.

Section JournalEntry.

Lemma str_field_bounds (lo hi : nat) (raw : string) :
  str_field (Some lo) (Some hi) None raw
  = if (lo <=? String.length (PyStr.strip raw))%nat &&
       (String.length (PyStr.strip raw) <=? hi)%nat
    then Some (PyStr.strip raw) else None.
Proof. unfold str_field. cbn [check_opt]. by rewrite andb_true_r. Qed.

Lemma str_field_pattern (p : string -> bool) (raw : string) :
  str_field None None (Some p) raw
  = if p (PyStr.strip raw) then Some (PyStr.strip raw) else None.
Proof. unfold str_field. cbn [check_opt]. done. Qed.

Lemma journal_validate_ok (raw : AgenticJournalEntry.t) (tid ls : string)
    (gch : option string) :
  str_field (Some 5%nat) (Some 50%nat) None (AgenticJournalEntry.task_id raw) = Some tid ->
  str_field (Some 10%nat) (Some 5000%nat) None (AgenticJournalEntry.logic_summary raw) = Some ls ->
  match AgenticJournalEntry.git_commit_hash raw with
  | None => Some None
  | Some h => Some <$> str_field None None (Some commit_hash_pattern) h
  end = Some gch ->
  AgenticJournalEntry.validate raw
  = Ok {| AgenticJournalEntry.task_id := tid;
          AgenticJournalEntry.guru_agent := AgenticJournalEntry.guru_agent raw;
          AgenticJournalEntry.timestamp := AgenticJournalEntry.timestamp raw;
          AgenticJournalEntry.logic_summary := ls;
          AgenticJournalEntry.sub_agents_engaged :=
            PyStr.strip <$> AgenticJournalEntry.sub_agents_engaged raw;
          AgenticJournalEntry.git_commit_hash := gch;
          AgenticJournalEntry.artifacts_created :=
            PyStr.strip <$> AgenticJournalEntry.artifacts_created raw;
          AgenticJournalEntry.security_clearance :=
            AgenticJournalEntry.security_clearance raw;
          AgenticJournalEntry.parent_context_id :=
            PyStr.strip <$> AgenticJournalEntry.parent_context_id raw;
          AgenticJournalEntry.next_steps :=
            PyStr.strip <$> AgenticJournalEntry.next_steps raw;
          AgenticJournalEntry.status := AgenticJournalEntry.status raw |}.
Proof.
  intros H1 H2 H3. unfold AgenticJournalEntry.validate.
  rewrite H1, H2, H3. reflexivity.
Qed.

Lemma journal_validate_inv (raw entry : AgenticJournalEntry.t) :
  AgenticJournalEntry.validate raw = Ok entry ->
  str_field (Some 5%nat) (Some 50%nat) None (AgenticJournalEntry.task_id raw)
  = Some (AgenticJournalEntry.task_id entry) /\
  str_field (Some 10%nat) (Some 5000%nat) None (AgenticJournalEntry.logic_summary raw)
  = Some (AgenticJournalEntry.logic_summary entry) /\
  match AgenticJournalEntry.git_commit_hash raw with
  | None => Some None
  | Some h => Some <$> str_field None None (Some commit_hash_pattern) h
  end = Some (AgenticJournalEntry.git_commit_hash entry) /\
  AgenticJournalEntry.security_clearance entry
  = AgenticJournalEntry.security_clearance raw.
Proof.
  unfold AgenticJournalEntry.validate.
  destruct (str_field (Some 5%nat) _ _ _) as [tid|];
    destruct (str_field (Some 10%nat) _ _ _) as [ls|];
    destruct (match AgenticJournalEntry.git_commit_hash raw with
              | None => Some None | Some h => _ end) as [gch|];
    intros [= <-]; done.
Qed.

Lemma bounds_true (lo hi n : nat) :
  (lo <=? n)%nat && (n <=? hi)%nat = true -> (lo <= n <= hi)%nat.
Proof. intros [H1%Nat.leb_le H2%Nat.leb_le]%andb_true_iff. lia. Qed.

End JournalEntry.

(** X8. An [AgenticJournalEntry] that passed validation has a task id of 5
    to 50 characters, a summary of 10 to 5000 characters and, when it has
    a commit hash, one that matches the pattern. For such an entry the
    emptiness tests of [validate_journal_entry] never fire: the policy
    fails exactly when the clearance is [TOP_SECRET] and there is no
    commit hash. *)
Theorem AgenticJournalEntry_validate_sound (raw entry : AgenticJournalEntry.t) :
  AgenticJournalEntry.validate raw = Ok entry ->
  (5 <= String.length (AgenticJournalEntry.task_id entry) <= 50)%nat /\
  (10 <= String.length (AgenticJournalEntry.logic_summary entry) <= 5000)%nat /\
  (forall h, AgenticJournalEntry.git_commit_hash entry = Some h ->
             commit_hash_pattern h = true) /\
  (validate_journal_entry entry = false <->
   AgenticJournalEntry.security_clearance entry = TOP_SECRET /\
   AgenticJournalEntry.git_commit_hash entry = None).
Proof.
  intros (Htid & Hls & Hhash & _)%journal_validate_inv.
  rewrite str_field_bounds in Htid, Hls.
  destruct (_ && _) eqn:Btid in Htid; [|done]. injection Htid as Htid.
  destruct (_ && _) eqn:Bls in Hls; [|done]. injection Hls as Hls.
  apply bounds_true in Btid, Bls. rewrite Htid in Btid. rewrite Hls in Bls.
  assert (forall h, AgenticJournalEntry.git_commit_hash entry = Some h ->
                    commit_hash_pattern h = true) as Hpattern.
  { intros h Hh. rewrite Hh in Hhash.
    destruct (AgenticJournalEntry.git_commit_hash raw) as [h0|]; [|done].
    rewrite str_field_pattern in Hhash.
    destruct (commit_hash_pattern (PyStr.strip h0)) eqn:Hp; [|done].
    by injection Hhash as <-. }
  split; [done|]. split; [done|]. split; [done|].
  unfold validate_journal_entry. rewrite !truthy_length by lia. simpl.
  destruct (AgenticJournalEntry.git_commit_hash entry) as [h|] eqn:Hh; simpl.
  - rewrite truthy_length.
    + split; [by case_bool_decide | by intros [_ [=]]].
    + specialize (Hpattern h eq_refl). unfold commit_hash_pattern in Hpattern.
      apply andb_true_iff in Hpattern as [[H7%Nat.leb_le _]%andb_true_iff _]. lia.
  - split; [by case_bool_decide | by intros [-> _]].
Qed.

Lemma AgenticJournalEntry_validate_sound_witness :
  validate_journal_entry (top_secret_entry None) = false <->
  AgenticJournalEntry.security_clearance (top_secret_entry None) = TOP_SECRET /\
  AgenticJournalEntry.git_commit_hash (top_secret_entry None) = None.
Proof.
  apply (AgenticJournalEntry_validate_sound (top_secret_entry None)
           (top_secret_entry None)).
  vm_compute. reflexivity.
Defined.

Section Record.

(** what [create_journal_entry] does, by the two length checks and the
    opening of the file *)
Lemma create_journal_entry_cases self utcnow now task_id guru_agent
    logic_summary sub_agents artifacts status :
  let tid := PyStr.strip task_id in
  let ls := PyStr.strip logic_summary in
  let ok_tid := (5 <=? String.length tid)%nat && (String.length tid <=? 50)%nat in
  let ok_ls := (10 <=? String.length ls)%nat && (String.length ls <=? 5000)%nat in
  create_journal_entry self utcnow now task_id guru_agent logic_summary
    sub_agents artifacts status
  = if ok_tid && ok_ls
    then
      let entry :=
        {| AgenticJournalEntry.task_id := tid;
           AgenticJournalEntry.guru_agent := guru_agent;
           AgenticJournalEntry.timestamp := utcnow;
           AgenticJournalEntry.logic_summary := ls;
           AgenticJournalEntry.sub_agents_engaged := PyStr.strip <$> or_empty sub_agents;
           AgenticJournalEntry.git_commit_hash := None;
           AgenticJournalEntry.artifacts_created := PyStr.strip <$> or_empty artifacts;
           AgenticJournalEntry.security_clearance := INTERNAL;
           AgenticJournalEntry.parent_context_id := None;
           AgenticJournalEntry.next_steps := [];
           AgenticJournalEntry.status := status |} in
      match open_for_writing (journal_filename now task_id) with
      | Some e => (Raise e, self)
      | None =>
          (Ok entry,
           {| guru_agents := guru_agents self;
              active_shards := active_shards self;
              shards_file := shards_file self;
              journal := <[journal_filename now task_id := journal_content entry]>
                           (journal self) |})
      end
    else
      (Raise (ValidationError
                ((if ok_tid then [] else ["task_id"]) ++
                 (if ok_ls then [] else ["logic_summary"]))), self).
Proof.
  intros tid ls ok_tid ok_ls.
  unfold create_journal_entry, AgenticJournalEntry.validate.
  cbn [AgenticJournalEntry.task_id AgenticJournalEntry.logic_summary
       AgenticJournalEntry.git_commit_hash].
  rewrite !str_field_bounds. fold tid ls. fold ok_tid ok_ls.
  destruct ok_tid, ok_ls; reflexivity.
Qed.

Lemma open_for_writing_opens (name : string) :
  has_char "000" name = false -> has_char "/" name = false ->
  (String.length name <= NAME_MAX)%nat -> open_for_writing name = None.
Proof.
  intros Hnul Hslash Hlen. unfold open_for_writing. rewrite Hnul, Hslash.
  by apply Nat.ltb_ge in Hlen as ->.
Qed.

End Record.



(** X10. Every entry [create_journal_entry] returns passes
    [validate_journal_entry]. It carries the trimmed task id and summary,
    the trimmed sub-agent and artifact names, the agent and status given,
    the UTC clock reading as timestamp, clearance [INTERNAL], no commit
    hash and no next steps. *)
Theorem create_journal_entry_returns_valid_entry
    (self self' : t) (utcnow now : datetime) (task_id : string)
    (guru_agent : AgentRole) (logic_summary : string)
    (sub_agents artifacts : option (list string)) (status : TaskStatus)
    (entry : AgenticJournalEntry.t) :
  create_journal_entry self utcnow now task_id guru_agent logic_summary
    sub_agents artifacts status = (Ok entry, self') ->
  validate_journal_entry entry = true /\
  entry =
    {| AgenticJournalEntry.task_id := PyStr.strip task_id;
       AgenticJournalEntry.guru_agent := guru_agent;
       AgenticJournalEntry.timestamp := utcnow;
       AgenticJournalEntry.logic_summary := PyStr.strip logic_summary;
       AgenticJournalEntry.sub_agents_engaged := PyStr.strip <$> or_empty sub_agents;
       AgenticJournalEntry.git_commit_hash := None;
       AgenticJournalEntry.artifacts_created := PyStr.strip <$> or_empty artifacts;
       AgenticJournalEntry.security_clearance := INTERNAL;
       AgenticJournalEntry.parent_context_id := None;
       AgenticJournalEntry.next_steps := [];
       AgenticJournalEntry.status := status |}.
Proof.
  rewrite create_journal_entry_cases.
  destruct (_ && _) eqn:Hok; [|done].
  destruct (open_for_writing _); [done|]. intros [= <- <-]. split; [|done].
  apply andb_true_iff in Hok as [[H5%Nat.leb_le _]%andb_true_iff
                                 [H10%Nat.leb_le _]%andb_true_iff].
  unfold validate_journal_entry. simpl.
  rewrite !truthy_length by lia. done.
Qed.

Lemma create_journal_entry_returns_valid_entry_witness :
  exists entry,
    fst (first_record fresh) = Ok entry /\ validate_journal_entry entry = true.
Proof.
  destruct (first_record fresh) as [[entry|e] self'] eqn:Hrec.
  - exists entry. split; [reflexivity|].
    unfold first_record in Hrec.
    exact (proj1 (create_journal_entry_returns_valid_entry _ _ _ _ _ _ _ _ _ _ _ Hrec)).
  - vm_compute in Hrec. discriminate Hrec.
Defined.

(** X11. A successful [create_journal_entry] writes one file, named by the
    local time to the second and the lower-cased task id as passed, holding
    the text of the returned entry. Every file with another name is kept
    as it was; the number of files grows by one when the name is new and
    stays the same when a file of that name existed, whose text is
    replaced. The shard document, the shard file and the manifest are not
    touched. *)
Theorem create_journal_entry_writes_one_file
    (self self' : t) (utcnow now : datetime) (task_id : string)
    (guru_agent : AgentRole) (logic_summary : string)
    (sub_agents artifacts : option (list string)) (status : TaskStatus)
    (entry : AgenticJournalEntry.t) :
  create_journal_entry self utcnow now task_id guru_agent logic_summary
    sub_agents artifacts status = (Ok entry, self') ->
  let name :=
    strftime_stamp now +:+ "-" +:+ PyStr.lower task_id +:+ ".md" in
  journal self' !! name = Some (journal_content entry) /\
  (forall other, other <> name -> journal self' !! other = journal self !! other) /\
  (journal self !! name = None -> size (journal self') = S (size (journal self))) /\
  (is_Some (journal self !! name) -> size (journal self') = size (journal self)) /\
  active_shards self' = active_shards self /\
  shards_file self' = shards_file self /\
  guru_agents self' = guru_agents self.
Proof.
  rewrite create_journal_entry_cases.
  destruct (_ && _); [|done].
  destruct (open_for_writing _); [done|]. intros [= <- <-]. simpl.
  unfold journal_filename.
  split; [apply lookup_insert_eq|].
  split; [intros other Hne; by apply lookup_insert_ne|].
  split; [apply map_size_insert_None|].
  split; [apply map_size_insert_Some | done].
Qed.

Lemma create_journal_entry_writes_one_file_witness :
  exists entry self',
    first_record fresh = (Ok entry, self') /\
    size (journal self') = 1%nat.
Proof.
  destruct (first_record fresh) as [[entry|e] self'] eqn:Hrec.
  - exists entry, self'. split; [reflexivity|].
    unfold first_record in Hrec.
    destruct (create_journal_entry_writes_one_file _ _ _ _ _ _ _ _ _ _ _ Hrec)
      as (_ & _ & Hnew & _).
    rewrite Hnew; reflexivity.
  - vm_compute in Hrec. discriminate Hrec.
Defined.

Section FileNames.

Lemma string_length_app (a b : string) :
  String.length (a +:+ b) = (String.length a + String.length b)%nat.
Proof. induction a as [|c a IH]; simpl; [done|]. by rewrite IH. Qed.

Lemma string_app_inj_length (a a' b b' : string) :
  String.length a = String.length a' ->
  a +:+ b = a' +:+ b' -> a = a' /\ b = b'.
Proof.
  revert a'. induction a as [|c a IH]; intros [|c' a'] Hlen Heq;
    simpl in *; try done.
  injection Heq as -> Heq. destruct (IH a') as [-> ->]; [lia | done | done].
Qed.

Lemma string_app_inj_r (a a' b : string) : a +:+ b = a' +:+ b -> a = a'.
Proof.
  intros Heq. apply (string_app_inj_length a a' b b); [|done].
  apply (f_equal String.length) in Heq. rewrite !string_length_app in Heq. lia.
Qed.

Lemma below_enumerated (P : N -> bool) (lo len n : N) :
  forallb (fun k => P (lo + N.of_nat k)%N) (seq 0 (N.to_nat len)) = true ->
  (lo <= n < lo + len)%N -> P n = true.
Proof.
  intros Hall Hn. rewrite forallb_forall in Hall.
  replace n with (lo + N.of_nat (N.to_nat (n - lo)))%N by lia.
  apply Hall. apply in_seq. lia.
Qed.

Lemma zfill_two (n : N) :
  (n < 100)%N ->
  String.length (PyStr.zfill 2 n) = 2%nat /\ digits_value 0 (PyStr.zfill 2 n) = n.
Proof.
  intros Hn. assert (two_digits n = true) as H.
  { apply (below_enumerated two_digits 0 100); [vm_compute; reflexivity | lia]. }
  apply andb_true_iff in H as [H1%Nat.eqb_eq H2%N.eqb_eq]. done.
Qed.

Lemma zfill_four (n : N) :
  (1000 <= n <= 9999)%N ->
  String.length (PyStr.zfill 4 n) = 4%nat /\ digits_value 0 (PyStr.zfill 4 n) = n.
Proof.
  intros Hn. assert (four_digits n = true) as H.
  { apply (below_enumerated four_digits 1000 9000); [vm_compute; reflexivity | lia]. }
  apply andb_true_iff in H as [H1%Nat.eqb_eq H2%N.eqb_eq]. done.
Qed.

Lemma zfill_two_inj (a b : N) :
  (a < 100)%N -> (b < 100)%N -> PyStr.zfill 2 a = PyStr.zfill 2 b -> a = b.
Proof.
  intros Ha%zfill_two Hb%zfill_two Heq. destruct Ha as [_ <-], Hb as [_ <-].
  by rewrite Heq.
Qed.

Lemma zfill_two_length (n : N) :
  (n < 100)%N -> String.length (PyStr.zfill 2 n) = 2%nat.
Proof. intros Hn. by apply zfill_two. Qed.

Lemma zfill_four_length (n : N) :
  (1000 <= n <= 9999)%N -> String.length (PyStr.zfill 4 n) = 4%nat.
Proof. intros Hn. by apply zfill_four. Qed.

Lemma strftime_stamp_length (t : datetime) :
  in_range t -> String.length (strftime_stamp t) = 17%nat.
Proof.
  intros (Hy & Hmo & Hd & Hh & Hmi & Hs & _). unfold strftime_stamp.
  rewrite !string_length_app. simpl.
  rewrite zfill_four_length, !zfill_two_length by lia. done.
Qed.

Lemma strftime_stamp_inj (t1 t2 : datetime) :
  in_range t1 -> in_range t2 ->
  strftime_stamp t1 = strftime_stamp t2 -> same_second t1 t2.
Proof.
  intros (Hy1 & Hmo1 & Hd1 & Hh1 & Hmi1 & Hs1 & _)
         (Hy2 & Hmo2 & Hd2 & Hh2 & Hmi2 & Hs2 & _).
  unfold strftime_stamp, same_second. intros Heq.
  apply string_app_inj_length in Heq as [Hyear Heq];
    [|rewrite !zfill_four_length by lia; done].
  apply string_app_inj_length in Heq as [_ Heq]; [|done].
  apply string_app_inj_length in Heq as [Hmonth Heq];
    [|rewrite !zfill_two_length by lia; done].
  apply string_app_inj_length in Heq as [_ Heq]; [|done].
  apply string_app_inj_length in Heq as [Hday Heq];
    [|rewrite !zfill_two_length by lia; done].
  apply string_app_inj_length in Heq as [_ Heq]; [|done].
  apply string_app_inj_length in Heq as [Hhour Heq];
    [|rewrite !zfill_two_length by lia; done].
  apply string_app_inj_length in Heq as [Hminute Hsecond];
    [|rewrite !zfill_two_length by lia; done].
  split.
  { destruct (zfill_four (year t1)) as [_ <-]; [lia|].
    destruct (zfill_four (year t2)) as [_ <-]; [lia|]. by rewrite Hyear. }
  repeat split; apply zfill_two_inj; (lia || done).
Qed.

End FileNames.

(** X12. For clock readings of the current era, two journal records get
    the same file name exactly when their local times agree to the second
    and their task ids are equal after lower-casing: microseconds and the
    case of the task id are lost in the name, and nothing else is. *)
Theorem journal_filename_collision
    (t1 t2 : datetime) (task1 task2 : string) :
  in_range t1 -> in_range t2 ->
  journal_filename t1 task1 = journal_filename t2 task2 <->
  same_second t1 t2 /\ PyStr.lower task1 = PyStr.lower task2.
Proof.
  intros H1 H2. unfold journal_filename. split.
  - intros Heq.
    apply string_app_inj_length in Heq as [Hstamp Hrest];
      [|by rewrite !strftime_stamp_length].
    split; [by apply strftime_stamp_inj|].
    apply string_app_inj_length in Hrest as [_ Hrest]; [|done].
    by apply string_app_inj_r in Hrest.
  - intros [(Hy & Hmo & Hd & Hh & Hmi & Hs) ->]. unfold strftime_stamp.
    by rewrite Hy, Hmo, Hd, Hh, Hmi, Hs.
Qed.

Lemma journal_filename_collision_witness :
  journal_filename morning "SHARD-006-WORKFLOW"
  = journal_filename morning' "Shard-006-Workflow".
Proof.
  apply (journal_filename_collision morning morning'
           "SHARD-006-WORKFLOW" "Shard-006-Workflow").
  - vm_compute. repeat split; discriminate.
  - vm_compute. repeat split; discriminate.
  - split; [by repeat split | reflexivity].
Defined.

Section Runs.

(** the first record with a new id, appended to a collection that does
    not hold the id, is found at the end *)
Lemma find_shard_appended (i : string) (l : list ShardDict.t) (d : ShardDict.t) :
  i ∉ shard_ids l -> ShardDict.shard_id d = i ->
  find_shard i (l ++ [d]) = Some (length l, d).
Proof.
  intros Hnot%find_shard_None Hid. unfold find_shard in *.
  rewrite list_find_app_r by done. simpl.
  by rewrite decide_True.
Qed.

(** [Create] and [Assign] leave the counter alone; [Complete] adds one to
    it exactly when it appends to the completed collection. *)
Lemma step_counter (self : t) (o : op) (n : Z) :
  total_completed self = Some n ->
  total_completed (step self o)
  = Some (n + Z.of_nat (length (completed_ids (step self o)))
            - Z.of_nat (length (completed_ids self))).
Proof.
  intros Hn. destruct o as [utcnow i ti de ow pr deps | i | now i]; simpl.
  - destruct (create_story_shard_cases self utcnow i ti de ow pr deps)
      as [(fields & ->) | (shard & self' & -> & _ & _ & Hc & _ & Hm & _)]; simpl.
    + rewrite Hn. f_equal. lia.
    + unfold total_completed, completed_ids in *. rewrite Hm, Hc, Hn. f_equal. lia.
  - unfold assign_shard_to_agent.
    destruct (find_shard i _) as [[k s]|]; [destruct (find_agent _ _) as [[j a]|]|];
      simpl; unfold total_completed, completed_ids in *; simpl;
      rewrite Hn; f_equal; lia.
  - unfold complete_shard, total_completed in *.
    destruct (find_shard i _) as [[k s]|]; simpl.
    + destruct (ShardDocument.metrics _) as [m|]; [|done]. simpl in Hn.
      rewrite Hn. simpl. rewrite lookup_insert_eq. f_equal.
      unfold completed_ids, shard_ids. simpl.
      rewrite !length_fmap, length_app. simpl. lia.
    + rewrite Hn. f_equal. lia.
Qed.

(** with a counter in the document, an operation leaves the shard file
    equal to the document in memory *)
Lemma step_in_sync (self : t) (o : op) :
  is_Some (total_completed self) ->
  shards_file self = Some (active_shards self) ->
  shards_file (step self o) = Some (active_shards (step self o)).
Proof.
  intros [n Hn] Hsync. destruct o as [utcnow i ti de ow pr deps | i | now i]; simpl.
  - destruct (create_story_shard_cases self utcnow i ti de ow pr deps)
      as [(fields & ->) | (shard & self' & -> & _ & _ & _ & _ & _ & Hf & _)]; done.
  - unfold assign_shard_to_agent.
    destruct (find_shard i _) as [[k s]|]; [destruct (find_agent _ _) as [[j a]|]|];
      done.
  - unfold complete_shard, total_completed in *.
    destruct (find_shard i _) as [[k s]|]; [|done].
    destruct (ShardDocument.metrics _) as [m|]; [|done]. simpl in Hn.
    by rewrite Hn.
Qed.

End Runs.

(** X13. When the document has a [total_completed] counter, the counter
    keeps step with the completed collection over every run of [Create],
    [Assign] and [Complete]: it grows by exactly the number of records the
    run appended to the completed collection, and no operation of the run
    raises [KeyError]. *)
Theorem counter_tracks_completed_collection (self : t) (n : Z) (ops : list op) :
  total_completed self = Some n ->
  total_completed (run self ops)
  = Some (n + Z.of_nat (length (completed_ids (run self ops)))
            - Z.of_nat (length (completed_ids self))) /\
  forall now shard_id e,
    fst (complete_shard (run self ops) now shard_id) <> Raise e.
Proof.
  revert self n. induction ops as [|o ops IH]; intros self n Hn.
  - simpl. split; [rewrite Hn; f_equal; lia|].
    intros now shard_id e. unfold complete_shard, total_completed in *.
    destruct (find_shard shard_id _) as [[k s]|]; [|done].
    destruct (ShardDocument.metrics _) as [m|]; [|done]. simpl in Hn.
    by rewrite Hn.
  - simpl. pose proof (step_counter self o n Hn) as Hstep.
    destruct (IH _ _ Hstep) as [Hrun Hne]. split; [|done].
    rewrite Hrun. f_equal. lia.
Qed.

Lemma counter_tracks_completed_collection_witness :
  total_completed (run counted two_shards) = Some 1.
Proof.
  destruct (counter_tracks_completed_collection counted 0 two_shards) as [H _].
  - reflexivity.
  - rewrite H. vm_compute. reflexivity.
Defined.

(** X14. When the orchestrator starts with a shard file that has a
    [total_completed] counter, the file equals the document in memory
    after every run of [Create], [Assign] and [Complete]: an orchestrator
    started again on the file that the run left has the same shard
    document. *)
Theorem shard_file_in_sync_after_run
    (agents : list GuruAgent.t) (file : ShardDocument.t)
    (journal_files : gmap string string) (ops : list op) :
  is_Some (ShardDocument.metrics file ≫= (.!! "total_completed")) ->
  let after := run (init agents (Some file) journal_files) ops in
  shards_file after = Some (active_shards after) /\
  active_shards (init agents (shards_file after) (journal after))
  = active_shards after.
Proof.
  intros Hcounter after.
  assert (forall self,
    is_Some (total_completed self) ->
    shards_file self = Some (active_shards self) ->
    shards_file (run self ops) = Some (active_shards (run self ops))) as Hrun.
  { induction ops as [|o ops IH]; intros self Hc Hs; [done|]. simpl.
    apply IH; [|by apply step_in_sync].
    destruct Hc as [n Hn]. rewrite (step_counter self o n Hn). eauto. }
  assert (shards_file after = Some (active_shards after)) as Hsync.
  { apply Hrun; [exact Hcounter | done]. }
  split; [done|]. simpl. by rewrite Hsync.
Qed.

Lemma shard_file_in_sync_after_run_witness :
  shards_file (run counted two_shards)
  = Some (active_shards (run counted two_shards)).
Proof.
  apply (shard_file_in_sync_after_run agents
           {| ShardDocument.active_shards := [];
              ShardDocument.completed_shards := [];
              ShardDocument.archived_shards := [];
              ShardDocument.metrics := Some {[ "total_completed" := 0 ]} |}
           ∅ two_shards).
  vm_compute. eauto.
Defined.

(** X15. The life of one shard. On an orchestrator whose document has a
    counter, for an id that is not active, valid fields and an owner role
    that an agent of the manifest carries: [create_story_shard], then
    [assign_shard_to_agent], then [complete_shard] all succeed; the
    assignment returns the agent [get_agent_by_role] gives for the role;
    afterwards the active collection is what it was, the completed
    collection has one more record, the shard with status [completed] and
    its completion time, the counter is one higher and the document is
    saved. *)
Theorem create_assign_complete
    (self : t) (utcnow now : datetime) (shard_id title description : string)
    (owner_agent : AgentRole) (priority : string)
    (dependencies : option (list string)) (agent : GuruAgent.t) (n : Z) :
  fields_valid shard_id title description ->
  PyStr.strip shard_id ∉ active_ids self ->
  get_agent_by_role self owner_agent = Some agent ->
  total_completed self = Some n ->
  let created :=
    create_story_shard self utcnow shard_id title description owner_agent
      priority dependencies in
  let assigned := assign_shard_to_agent (snd created) (PyStr.strip shard_id) in
  let completed := complete_shard (snd assigned) now (PyStr.strip shard_id) in
  (exists shard, fst created = Ok shard) /\
  fst assigned = Some agent /\
  fst completed = Ok true /\
  ShardDocument.active_shards (active_shards (snd completed))
  = ShardDocument.active_shards (active_shards self) /\
  ShardDocument.completed_shards (active_shards (snd completed))
  = ShardDocument.completed_shards (active_shards self) ++
    [ {| ShardDict.shard_id := PyStr.strip shard_id;
         ShardDict.title := PyStr.strip title;
         ShardDict.status := "completed";
         ShardDict.priority := PyStr.strip priority;
         ShardDict.owner_agent := AgentRole_value owner_agent;
         ShardDict.created_at := isoformat utcnow;
         ShardDict.dependencies := PyStr.strip <$> or_empty dependencies;
         ShardDict.completed_at := Some (isoformat now) |} ] /\
  total_completed (snd completed) = Some (n + 1) /\
  shards_file (snd completed) = Some (active_shards (snd completed)).
Proof.
  intros (Hid & Hti & Hde) Hnew Hagent Hn created assigned completed.
  unfold get_agent_by_role in Hagent.
  destruct (find_agent _ _) as [[j a]|] eqn:Hfind; [|done].
  injection Hagent as ->.
  subst completed assigned created.
  unfold create_story_shard, StoryShardSpec.validate, shard_request.
  cbn [StoryShardSpec.shard_id StoryShardSpec.title StoryShardSpec.description
       StoryShardSpec.estimated_complexity].
  rewrite (shard_field_ok _ Hid), (bounded_field_ok _ _ _ Hti),
    (min_field_ok _ _ Hde).
  cbn -[PyStr.strip isoformat find_shard find_agent]. split; [eauto|].
  unfold assign_shard_to_agent. cbn -[PyStr.strip isoformat find_shard find_agent].
  rewrite find_shard_appended by done.
  cbn -[PyStr.strip isoformat find_shard find_agent].
  rewrite Hfind. cbn -[PyStr.strip isoformat find_shard find_agent].
  split; [done|].
  rewrite insert_app_r_alt, Nat.sub_diag by done.
  cbn -[PyStr.strip isoformat find_shard find_agent].
  unfold complete_shard. cbn -[PyStr.strip isoformat find_shard find_agent].
  rewrite find_shard_appended by done.
  cbn -[PyStr.strip isoformat find_shard find_agent].
  unfold total_completed in *.
  destruct (ShardDocument.metrics (active_shards self)) as [m|]; [|done].
  simpl in Hn. rewrite Hn. cbn -[PyStr.strip isoformat find_shard find_agent].
  rewrite lookup_insert_eq.
  split; [done|]. split; [|done].
  rewrite delete_middle. apply app_nil_r.
Qed.

Lemma create_assign_complete_witness :
  fst (complete_shard
         (snd (assign_shard_to_agent
                 (snd (create_story_shard one_completed morning "SHARD-007-AUDIT"
                         a_title a_description SECURITY_SENTINEL "low" None))
                 "SHARD-007-AUDIT"))
         morning' "SHARD-007-AUDIT") = Ok true.
Proof.
  destruct (create_assign_complete one_completed morning morning' "SHARD-007-AUDIT"
              a_title a_description SECURITY_SENTINEL "low" None
              {| GuruAgent.name := "Security Sentinel";
                 GuruAgent.role := "Security & Compliance";
                 GuruAgent.status := "active" |} 1)
    as (_ & _ & Hdone & _).
  - apply fields_valid_sample. reflexivity.
  - vm_compute. apply not_elem_of_nil.
  - vm_compute. reflexivity.
  - reflexivity.
  - exact Hdone.
Defined.

Section Twice.

Lemma NoDup_delete_lookup {A} (l : list A) (n : nat) (x : A) :
  NoDup l -> l !! n = Some x -> x ∉ delete n l.
Proof.
  intros Hnd Hn. rewrite (delete_Permutation l n x Hn) in Hnd.
  by apply NoDup_cons in Hnd as [Hnot _].
Qed.

End Twice.

(** X16. When no id occurs twice in the active collection, a shard that
    [complete_shard] has moved is no longer active, whether the call
    returned or raised: a second [complete_shard] returns [False] and an
    [assign_shard_to_agent] returns [None], and neither changes anything. *)
Theorem complete_shard_once
    (self : t) (now now' : datetime) (shard_id : string) :
  NoDup (active_ids self) ->
  shard_id ∈ active_ids self ->
  let after := snd (complete_shard self now shard_id) in
  (shard_id ∉ active_ids after) /\
  shard_id ∈ completed_ids after /\
  complete_shard after now' shard_id = (Ok false, after) /\
  assign_shard_to_agent after shard_id = (None, after).
Proof.
  intros Hnd Hin after.
  assert ((shard_id ∉ active_ids after) /\ shard_id ∈ completed_ids after)
    as [Hnot Hdone].
  { destruct (complete_ids self now shard_id)
      as (_ & [(Hout & _) | (k & Hk & Ha & Hc)]); [done|].
    subst after. rewrite Ha, Hc. split; [by apply NoDup_delete_lookup|].
    apply elem_of_app. right. apply list_elem_of_here. }
  split; [done|]. split; [done|].
  apply find_shard_None in Hnot.
  unfold complete_shard, assign_shard_to_agent. by rewrite Hnot.
Qed.

Lemma complete_shard_once_witness :
  complete_shard one_completed morning "SHARD-001-INIT" = (Ok false, one_completed) /\
  assign_shard_to_agent one_completed "SHARD-001-INIT" = (None, one_completed).
Proof.
  destruct (complete_shard_once one_active morning' morning "SHARD-001-INIT")
    as (_ & _ & Hc & Ha).
  - vm_compute. apply NoDup_singleton.
  - vm_compute. apply list_elem_of_here.
  - split; [exact Hc | exact Ha].
Defined.

(** X17. [get_agent_by_role] returns the first agent of the manifest
    whose name, lower-cased and with underscores for spaces, is the value
    of the role: it returns an agent exactly when that agent is the first
    such one, and [None] exactly when no agent has such a name. For a
    shard that [create_story_shard] has just added under an id that was
    not active, [assign_shard_to_agent] returns the same answer as
    [get_agent_by_role] for the owner role given at creation. *)
Theorem get_agent_by_role_agrees_with_assign (self : t) (role : AgentRole) :
  (forall agent,
     get_agent_by_role self role = Some agent <->
     exists j, first_agent (AgentRole_value role) (guru_agents self) j agent) /\
  (forall agent,
     get_agent_by_role self role = Some agent ->
     agent ∈ guru_agents self /\
     PyStr.replace " " "_" (PyStr.lower (GuruAgent.name agent))
     = AgentRole_value role) /\
  (get_agent_by_role self role = None <->
   forall agent,
     agent ∈ guru_agents self ->
     PyStr.replace " " "_" (PyStr.lower (GuruAgent.name agent))
     <> AgentRole_value role) /\
  (forall utcnow shard_id title description priority dependencies,
     fields_valid shard_id title description ->
     PyStr.strip shard_id ∉ active_ids self ->
     fst (assign_shard_to_agent
            (snd (create_story_shard self utcnow shard_id title description
                    role priority dependencies))
            (PyStr.strip shard_id))
     = get_agent_by_role self role).
Proof.
  split; [|split; [|split]].
  - intros agent. unfold get_agent_by_role.
    destruct (find_agent _ _) as [[j a]|] eqn:Hfind; simpl.
    + split.
      * intros [= <-]. exists j. by apply find_agent_first.
      * intros (j' & Hfa%find_agent_first). rewrite Hfind in Hfa.
        by injection Hfa as _ ->.
    + split; [done|]. intros (j' & Hfa%find_agent_first). by rewrite Hfind in Hfa.
  - unfold get_agent_by_role, find_agent. intros agent Hget.
    destruct (list_find _ _) as [[j a]|] eqn:Hfind; [|done].
    injection Hget as ->. apply list_find_Some in Hfind as (Hj & Hname & _).
    split; [by eapply list_elem_of_lookup_2 | done].
  - unfold get_agent_by_role, find_agent.
    rewrite fmap_None, list_find_None, Forall_forall. done.
  - unfold get_agent_by_role.
    intros utcnow shard_id title description priority dependencies
      (Hid & Hti & Hde) Hnew.
    unfold create_story_shard, StoryShardSpec.validate, shard_request.
    cbn [StoryShardSpec.shard_id StoryShardSpec.title StoryShardSpec.description
         StoryShardSpec.estimated_complexity].
    rewrite (shard_field_ok _ Hid), (bounded_field_ok _ _ _ Hti),
      (min_field_ok _ _ Hde).
    cbn -[PyStr.strip isoformat find_shard find_agent].
    unfold assign_shard_to_agent.
    cbn -[PyStr.strip isoformat find_shard find_agent].
    rewrite find_shard_appended by done.
    cbn -[PyStr.strip isoformat find_shard find_agent].
    by destruct (find_agent _ _) as [[j a]|].
Qed.

Lemma get_agent_by_role_agrees_with_assign_witness :
  get_agent_by_role twins SECURITY_SENTINEL
  = Some {| GuruAgent.name := "Security Sentinel";
              GuruAgent.role := "Security & Compliance";
              GuruAgent.status := "active" |} /\
  fst (assign_shard_to_agent
         (snd (create_story_shard twins morning "SHARD-007-AUDIT" a_title
                 a_description SECURITY_SENTINEL "low" None))
         "SHARD-007-AUDIT")
  = Some {| GuruAgent.name := "Security Sentinel";
              GuruAgent.role := "Security & Compliance";
              GuruAgent.status := "active" |}.
Proof.
  destruct (get_agent_by_role_agrees_with_assign twins SECURITY_SENTINEL)
    as (Hfirst & _ & _ & Hassign).
  assert (get_agent_by_role twins SECURITY_SENTINEL
          = Some {| GuruAgent.name := "Security Sentinel";
              GuruAgent.role := "Security & Compliance";
              GuruAgent.status := "active" |}) as Hget.
  { apply Hfirst. exists 1%nat.
    split; [vm_compute; reflexivity|]. split; [reflexivity|].
    intros k a Hk Hlt. destruct k as [|k]; [|lia].
    vm_compute in Hk. injection Hk as <-. vm_compute. discriminate. }
  split; [exact Hget|]. rewrite <- Hget.
  apply (Hassign morning "SHARD-007-AUDIT" a_title a_description "low" None).
  - apply fields_valid_sample. reflexivity.
  - vm_compute. apply not_elem_of_nil.
Defined.

(** X18. In the report of [get_status_report] the shard total is the sum
    of the active and completed counts, archived shards are not counted,
    and the active and planned agents together are at most all agents;
    the agent counts are those of [list_guru_agents]. When
    [create_story_shard] returns a shard, the active count and the total
    are one higher afterwards, and when it raises the report is the same;
    [assign_shard_to_agent] changes no count; when [complete_shard]
    returns [False] the report is the same, and otherwise, whether it
    returns [True] or raises, the active count is one lower, the completed
    count one higher and the total the same. *)
Theorem get_status_report_counts
    (self : t) (platform_name : string) (m : OrchestratorMode) (now : datetime) :
  let report := fun s => get_status_report s platform_name m now in
  let before := report self in
  shards_total before = (shards_active before + shards_completed before)%nat /\
  (agents_active before + agents_planned before <= agents_total before)%nat /\
  agents_active before = length (list_guru_agents self (Some "active")) /\
  agents_planned before = length (list_guru_agents self (Some "planned")) /\
  agents_total before = length (list_guru_agents self None) /\
  (forall utcnow shard_id title description owner_agent priority dependencies,
     let created :=
       create_story_shard self utcnow shard_id title description owner_agent
         priority dependencies in
     (forall shard, fst created = Ok shard ->
        shards_active (report (snd created)) = S (shards_active before) /\
        shards_completed (report (snd created)) = shards_completed before /\
        shards_total (report (snd created)) = S (shards_total before) /\
        agents_total (report (snd created)) = agents_total before) /\
     (forall e, fst created = Raise e -> report (snd created) = before)) /\
  (forall shard_id,
     let assigned := assign_shard_to_agent self shard_id in
     shards_active (report (snd assigned)) = shards_active before /\
     shards_completed (report (snd assigned)) = shards_completed before /\
     shards_total (report (snd assigned)) = shards_total before /\
     agents_total (report (snd assigned)) = agents_total before) /\
  (forall at_time shard_id,
     let completed := complete_shard self at_time shard_id in
     (fst completed = Ok false -> report (snd completed) = before) /\
     (fst completed <> Ok false ->
        S (shards_active (report (snd completed))) = shards_active before /\
        shards_completed (report (snd completed)) = S (shards_completed before) /\
        shards_total (report (snd completed)) = shards_total before /\
        agents_total (report (snd completed)) = agents_total before)).
Proof.
  intros report before. subst before report. cbv beta.
  unfold get_status_report. simpl.
  split; [done|]. split.
  { apply filter_two_lengths. by intros a -> [=]. }
  split.
  { unfold list_guru_agents. simpl. f_equal. apply list_filter_iff.
    intros a. split; [intros ->; done | intros [= ->]; done]. }
  split.
  { unfold list_guru_agents. simpl. f_equal. apply list_filter_iff.
    intros a. split; [intros ->; done | intros [= ->]; done]. }
  split; [done|]. split; [|split].
  - intros utcnow i ti de ow pr deps.
    destruct (create_story_shard_cases self utcnow i ti de ow pr deps)
      as [(fields & ->) | (shard & self' & -> & _ & Ha & Hc & _ & _ & _ & _ & Hg)];
      simpl; (split; [intros ? [=] | intros ? [=]]); try done.
    rewrite Hg, Ha, Hc, length_app. simpl. split; [lia|]. split; [done|].
    split; [lia | done].
  - intros i. unfold assign_shard_to_agent.
    destruct (find_shard i _) as [[k s]|]; [destruct (find_agent _ _) as [[j a]|]|];
      simpl; rewrite ?length_insert; done.
  - intros at_time i. unfold complete_shard.
    destruct (find_shard i _) as [[k s]|] eqn:Hfind; simpl; [|by split].
    apply find_shard_Some in Hfind as (Hk & _).
    assert (length (delete k (ShardDocument.active_shards (active_shards self)))
            = (length (ShardDocument.active_shards (active_shards self)) - 1)%nat)
      as Hdel by (apply length_delete; eauto).
    apply lookup_lt_Some in Hk.
    destruct (ShardDocument.metrics _) as [mm|]; [destruct (mm !! _)|]; simpl;
      (split; [done|]); intros _; rewrite Hdel, length_app; simpl;
      (split; [lia|]); (split; [lia|]); (split; [lia | done]).
Qed.

Lemma get_status_report_counts_witness :
  shards_active (get_status_report one_active "Sovereign Forge" TESTING morning) = 1%nat /\
  shards_active
    (get_status_report
       (snd (create_story_shard one_active morning' "SHARD-002-BUILD" a_title
               a_description SECURITY_SENTINEL "low" None))
       "Sovereign Forge" TESTING morning) = 2%nat /\
  shards_total
    (get_status_report
       (snd (complete_shard one_active morning' "SHARD-001-INIT"))
       "Sovereign Forge" TESTING morning) = 1%nat.
Proof.
  destruct (get_status_report_counts one_active "Sovereign Forge" TESTING morning)
    as (_ & _ & _ & _ & _ & Hcreate & _ & Hcomplete).
  split; [reflexivity|]. split.
  - destruct (Hcreate morning' "SHARD-002-BUILD" a_title a_description
                SECURITY_SENTINEL "low" None) as (Hok & _).
    destruct (create_story_shard one_active morning' "SHARD-002-BUILD" a_title
                a_description SECURITY_SENTINEL "low" None)
      as [[shard|e] self'] eqn:Hc.
    + destruct (Hok shard eq_refl) as (Hactive & _). exact Hactive.
    + vm_compute in Hc. discriminate Hc.
  - destruct (Hcomplete morning' "SHARD-001-INIT") as (_ & Hmoved).
    destruct Hmoved as (_ & _ & Htotal & _); [vm_compute; discriminate|].
    exact Htotal.
Defined.

Section Strip.

Lemma string_app_assoc (a b c : string) : (a +:+ b) +:+ c = a +:+ (b +:+ c).
Proof.
  induction a as [|x a IH]; [done|].
  change ((String x a +:+ b) +:+ c) with (String x ((a +:+ b) +:+ c)).
  by rewrite IH.
Qed.

Lemma rev_app_app (s1 s2 : string) :
  String.rev_app s1 s2 = String.rev_app s1 "" +:+ s2.
Proof.
  revert s2. induction s1 as [|c s1 IH]; intros s2; simpl; [done|].
  rewrite (IH (String c s2)), (IH (String c "")).
  by rewrite string_app_assoc.
Qed.

Lemma rev_cons (c : ascii) (s : string) :
  String.rev (String c s) = String.rev s +:+ String c "".
Proof. unfold String.rev. simpl. apply rev_app_app. Qed.

Lemma rev_snoc (s : string) (c : ascii) :
  String.rev (s +:+ String c "") = String c (String.rev s).
Proof.
  induction s as [|d s IH]; simpl; [done|].
  change (String d s +:+ String c "") with (String d (s +:+ String c "")).
  by rewrite !rev_cons, IH.
Qed.

Lemma rev_rev (s : string) : String.rev (String.rev s) = s.
Proof.
  induction s as [|c s IH]; [done|]. by rewrite rev_cons, rev_snoc, IH.
Qed.

Lemma lstrip_idem (s : string) : PyStr.lstrip (PyStr.lstrip s) = PyStr.lstrip s.
Proof.
  induction s as [|c s IH]; simpl; [done|].
  destruct (Ascii.is_space c) eqn:Hc; [done|]. simpl. by rewrite Hc.
Qed.

Lemma lstrip_snoc (s : string) (c : ascii) :
  Ascii.is_space c = false ->
  exists s', PyStr.lstrip (s +:+ String c "") = s' +:+ String c "".
Proof.
  intros Hc. induction s as [|d s [s' IH]].
  - exists "". simpl. by rewrite Hc.
  - change (String d s +:+ String c "") with (String d (s +:+ String c "")).
    simpl. destruct (Ascii.is_space d); [eauto|]. by exists (String d s).
Qed.

Lemma rstrip_idem (s : string) : PyStr.rstrip (PyStr.rstrip s) = PyStr.rstrip s.
Proof. unfold PyStr.rstrip. by rewrite rev_rev, lstrip_idem. Qed.

(** trimming the right end of a string that has no space at its left end
    leaves none there *)
Lemma lstrip_rstrip (s : string) :
  PyStr.lstrip s = s -> PyStr.lstrip (PyStr.rstrip s) = PyStr.rstrip s.
Proof.
  destruct s as [|c s]; [done|]. simpl.
  destruct (Ascii.is_space c) eqn:Hc.
  - intros Heq. apply (f_equal String.length) in Heq. simpl in Heq.
    assert (forall u, String.length (PyStr.lstrip u) <= String.length u)%nat as Hle.
    { induction u as [|d u IH]; simpl; [done|].
      destruct (Ascii.is_space d); simpl; lia. }
    specialize (Hle s). lia.
  - intros _. unfold PyStr.rstrip. rewrite rev_cons.
    destruct (lstrip_snoc (String.rev s) c Hc) as [s' ->].
    rewrite rev_snoc. simpl. by rewrite Hc.
Qed.

Lemma strip_idem (s : string) : PyStr.strip (PyStr.strip s) = PyStr.strip s.
Proof.
  unfold PyStr.strip.
  rewrite (lstrip_rstrip (PyStr.lstrip s)) by apply lstrip_idem.
  apply rstrip_idem.
Qed.

Lemma strip_idem_list (l : list string) :
  PyStr.strip <$> (PyStr.strip <$> l) = PyStr.strip <$> l.
Proof.
  rewrite <- list_fmap_compose. apply list_fmap_ext. intros _ s _. apply strip_idem.
Qed.

End Strip.

(** X19. Validation of a [StoryShardSpec] is idempotent: a record that
    passed validation passes it again and comes back unchanged, so
    setting a field of a validated record to the value it already has is
    accepted. Trimming a string twice is trimming it once. *)
Theorem StoryShardSpec_validate_idempotent (raw shard : StoryShardSpec.t) :
  StoryShardSpec.validate raw = Ok shard ->
  StoryShardSpec.validate shard = Ok shard /\
  (forall s, PyStr.strip (PyStr.strip s) = PyStr.strip s).
Proof.
  intros Hok. split; [|apply strip_idem]. revert Hok.
  unfold StoryShardSpec.validate, str_field, int_field. cbn [check_opt].
  set (sid := PyStr.strip (StoryShardSpec.shard_id raw)).
  set (ti := PyStr.strip (StoryShardSpec.title raw)).
  set (de := PyStr.strip (StoryShardSpec.description raw)).
  set (ec := StoryShardSpec.estimated_complexity raw).
  destruct (shard_id_pattern sid) eqn:Hid,
    (5 <=? String.length ti)%nat eqn:H5,
    (String.length ti <=? 200)%nat eqn:H200,
    (20 <=? String.length de)%nat eqn:H20,
    (1 <=? ec) eqn:H1, (ec <=? 10) eqn:H10; cbn [andb failed app]; try done.
  intros [= <-].
  cbn [StoryShardSpec.shard_id StoryShardSpec.title StoryShardSpec.description
       StoryShardSpec.estimated_complexity StoryShardSpec.priority
       StoryShardSpec.dependencies StoryShardSpec.acceptance_criteria
       StoryShardSpec.owner_agent StoryShardSpec.contributing_agents
       StoryShardSpec.status StoryShardSpec.created_at
       StoryShardSpec.target_completion].
  subst sid ti de. rewrite !strip_idem, !strip_idem_list.
  subst ec. rewrite Hid, H5, H200, H20, H1, H10. reflexivity.
Qed.

Lemma StoryShardSpec_validate_idempotent_witness :
  exists shard,
    StoryShardSpec.validate
      (shard_request morning "  SHARD-001-INIT " a_title a_description
         DEVOPS_AUTOMATOR " low" (Some [" SHARD-000-BASE "])) = Ok shard /\
    StoryShardSpec.validate shard = Ok shard.
Proof.
  destruct (StoryShardSpec.validate
              (shard_request morning "  SHARD-001-INIT " a_title a_description
                 DEVOPS_AUTOMATOR " low" (Some [" SHARD-000-BASE "])))
    as [shard|e] eqn:Hv.
  - exists shard. split; [reflexivity|].
    exact (proj1 (StoryShardSpec_validate_idempotent _ _ Hv)).
  - vm_compute in Hv. discriminate Hv.
Defined.

Section NoSpace.

Lemma all_chars_app (p : ascii -> bool) (a b : string) :
  PyStr.all_chars p (a +:+ b) = PyStr.all_chars p a && PyStr.all_chars p b.
Proof.
  induction a as [|c a IH]; [done|].
  change (String c a +:+ b) with (String c (a +:+ b)). simpl.
  by rewrite IH, andb_assoc.
Qed.

Lemma all_chars_rev (p : ascii -> bool) (s : string) :
  PyStr.all_chars p (String.rev s) = PyStr.all_chars p s.
Proof.
  induction s as [|c s IH]; [done|].
  rewrite rev_cons, all_chars_app, IH. simpl.
  by rewrite andb_true_r, andb_comm.
Qed.

Lemma all_chars_impl (p q : ascii -> bool) (s : string) :
  (forall c, p c = true -> q c = true) ->
  PyStr.all_chars p s = true -> PyStr.all_chars q s = true.
Proof.
  intros Hpq. induction s as [|c s IH]; simpl; [done|].
  intros [Hc Hs]%andb_true_iff. by rewrite (Hpq c Hc), IH.
Qed.

Lemma lstrip_no_space (s : string) :
  PyStr.all_chars no_space s = true -> PyStr.lstrip s = s.
Proof.
  destruct s as [|c s]; simpl; [done|]. unfold no_space.
  intros [Hc _]%andb_true_iff. by destruct (Ascii.is_space c).
Qed.

Lemma strip_no_space (s : string) :
  PyStr.all_chars no_space s = true -> PyStr.strip s = s.
Proof.
  intros Hs. unfold PyStr.strip, PyStr.rstrip.
  rewrite (lstrip_no_space s Hs).
  rewrite lstrip_no_space by (by rewrite all_chars_rev).
  apply rev_rev.
Qed.

Lemma digit_no_space (c : ascii) : PyStr.is_digit c = true -> no_space c = true.
Proof. destruct c as [[] [] [] [] [] [] [] []]; vm_compute; congruence. Qed.

Lemma upper_no_space (c : ascii) : PyStr.is_upper c = true -> no_space c = true.
Proof. destruct c as [[] [] [] [] [] [] [] []]; vm_compute; congruence. Qed.

Lemma strip_prefix_Some (p s rest : string) :
  PyStr.strip_prefix p s = Some rest -> s = p +:+ rest.
Proof.
  revert s. induction p as [|a p IH]; intros [|b s]; simpl; try done.
  - by intros [= <-].
  - by intros [= <-].
  - destruct (Ascii.eqb a b) eqn:Hab; [|done].
    apply Ascii.eqb_eq in Hab as ->. intros Hrest%IH. by rewrite Hrest.
Qed.

Lemma shard_id_pattern_shape (s : string) :
  shard_id_pattern s = true ->
  exists d1 d2 d3 tag,
    s = "SHARD-" +:+ String d1 (String d2 (String d3 (String "-" tag))) /\
    PyStr.is_digit d1 = true /\ PyStr.is_digit d2 = true /\
    PyStr.is_digit d3 = true /\ tag <> "" /\
    PyStr.all_chars PyStr.is_upper tag = true.
Proof.
  unfold shard_id_pattern.
  destruct (PyStr.strip_prefix "SHARD-" s) as [rest|] eqn:Hp; [|done].
  apply strip_prefix_Some in Hp as ->.
  destruct rest as [|d1 [|d2 [|d3 [|sep tag]]]]; try done.
  intros [[[[[H1 H2]%andb_true_iff H3]%andb_true_iff
             Hsep%Ascii.eqb_eq]%andb_true_iff
            Htag%truthy_true]%andb_true_iff Hup]%andb_true_iff.
  subst sep. by exists d1, d2, d3, tag.
Qed.

End NoSpace.

(** X20. An id that matches the shard-id pattern is [SHARD-], three digits,
    a dash and a non-empty tag of capital letters; it has at least eleven
    characters and no white space, so trimming leaves it unchanged: a
    [create_story_shard] with valid fields stores such an id exactly as it
    was given. *)
Theorem shard_id_pattern_ids_stored_verbatim (shard_id : string) :
  shard_id_pattern shard_id = true ->
  (exists d1 d2 d3 tag,
     shard_id = "SHARD-" +:+ String d1 (String d2 (String d3 (String "-" tag))) /\
     PyStr.is_digit d1 = true /\ PyStr.is_digit d2 = true /\
     PyStr.is_digit d3 = true /\ tag <> "" /\
     PyStr.all_chars PyStr.is_upper tag = true) /\
  (11 <= String.length shard_id)%nat /\
  PyStr.strip shard_id = shard_id /\
  (forall self utcnow title description owner_agent priority dependencies,
     (5 <= String.length (PyStr.strip title) <= 200)%nat ->
     (20 <= String.length (PyStr.strip description))%nat ->
     active_ids
       (snd (create_story_shard self utcnow shard_id title description
               owner_agent priority dependencies))
     = active_ids self ++ [shard_id]).
Proof.
  intros Hp.
  destruct (shard_id_pattern_shape _ Hp)
    as (d1 & d2 & d3 & tag & Hs & H1 & H2 & H3 & Htag & Hup).
  assert (PyStr.strip shard_id = shard_id) as Hstrip.
  { apply strip_no_space. rewrite Hs. simpl.
    rewrite (digit_no_space _ H1), (digit_no_space _ H2), (digit_no_space _ H3).
    simpl. apply (all_chars_impl PyStr.is_upper); [apply upper_no_space | done]. }
  split; [by exists d1, d2, d3, tag|]. split.
  { rewrite Hs. destruct tag; [done|]. simpl. lia. }
  split; [done|].
  intros self utcnow title description owner_agent priority dependencies Hti Hde.
  destruct (create_story_shard_valid self utcnow shard_id title description
              owner_agent priority dependencies)
    as (shard & self' & Hc & _ & _ & _ & Hids & _).
  { split; [by rewrite Hstrip | done]. }
  rewrite Hc. simpl. by rewrite Hids, Hstrip.
Qed.

Lemma shard_id_pattern_ids_stored_verbatim_witness :
  PyStr.strip "SHARD-042-DEPLOY" = "SHARD-042-DEPLOY".
Proof.
  apply (shard_id_pattern_ids_stored_verbatim "SHARD-042-DEPLOY"). reflexivity.
Defined.

Section DisplayNames.

Lemma slug_char_round_trip (c : ascii) (after_letter : bool) :
  slug_char c = true ->
  let shown :=
    let c' := if Ascii.eqb c "_" then " "%char else c in
    if after_letter then PyStr.to_lower c' else PyStr.to_upper c' in
  (if Ascii.eqb (PyStr.to_lower shown) " " then "_"%char
   else PyStr.to_lower shown) = c.
Proof.
  destruct c as [[] [] [] [] [] [] [] []], after_letter; vm_compute;
    first [reflexivity | discriminate].
Qed.

Lemma slug_round_trip (s : string) (after_letter : bool) :
  PyStr.all_chars slug_char s = true ->
  PyStr.replace " " "_"
    (PyStr.lower (PyStr.title_from after_letter (PyStr.replace "_" " " s))) = s.
Proof.
  revert after_letter. induction s as [|c s IH]; intros after_letter; [done|].
  simpl. intros [Hc Hs]%andb_true_iff.
  unfold PyStr.replace, PyStr.lower in *. simpl. f_equal.
  - by apply slug_char_round_trip.
  - by apply IH.
Qed.

Lemma role_values_are_slugs (role : AgentRole) :
  PyStr.all_chars slug_char (AgentRole_value role) = true.
Proof. by destruct role. Qed.

End DisplayNames.

(** X21. The name the journal prints for an agent leads back to the agent:
    for a string without capital letters and spaces, replacing underscores
    by spaces and title-casing, as [create_journal_entry] does for its
    [Agent] line, and then lower-casing and replacing spaces by
    underscores, as the agent lookup does, gives the string back. Every
    role value is such a string, so an agent listed first in the manifest
    under the printed name of a role is the one [get_agent_by_role]
    returns for that role, and distinct roles have distinct values. *)
Theorem printed_agent_name_resolves :
  (forall s,
     PyStr.all_chars slug_char s = true ->
     PyStr.replace " " "_" (PyStr.lower (PyStr.title (PyStr.replace "_" " " s)))
     = s) /\
  (forall self role agent others,
     guru_agents self = agent :: others ->
     GuruAgent.name agent
     = PyStr.title (PyStr.replace "_" " " (AgentRole_value role)) ->
     get_agent_by_role self role = Some agent) /\
  (forall r1 r2, AgentRole_value r1 = AgentRole_value r2 -> r1 = r2).
Proof.
  split; [|split].
  - intros s Hs. by apply slug_round_trip.
  - intros self role agent others Hagents Hname.
    unfold get_agent_by_role, find_agent. rewrite Hagents. simpl.
    rewrite decide_True; [done|].
    rewrite Hname. apply slug_round_trip, role_values_are_slugs.
  - intros r1 r2. destruct r1, r2; (reflexivity || discriminate).
Qed.

Lemma printed_agent_name_resolves_witness :
  get_agent_by_role fresh ARCHITECTURAL_SOVEREIGN
  = Some {| GuruAgent.name := "Architectural Sovereign";
            GuruAgent.role := "System Design & Pattern Governance";
            GuruAgent.status := "active" |}.
Proof.
  destruct printed_agent_name_resolves as (_ & Hfirst & _).
  eapply Hfirst; reflexivity.
Defined.

Section WellFormed.

Lemma step_well_formed (self : t) (o : op) :
  well_formed self -> well_formed (step self o).
Proof.
  intros [Ha Hc]. destruct o as [utcnow i ti de ow pr deps | i | now i]; simpl.
  - unfold create_story_shard.
    destruct (StoryShardSpec.validate _) as [shard|e] eqn:Hv; [|done].
    split; [|done]. simpl. apply Forall_app. split; [done|].
    apply Forall_singleton.
    assert (shard_id_pattern (StoryShardSpec.shard_id shard) = true
            /\ StoryShardSpec.status shard = PENDING) as [Hid Hst].
    { revert Hv. unfold StoryShardSpec.validate, shard_request, str_field.
      cbn [check_opt StoryShardSpec.shard_id StoryShardSpec.status].
      destruct (shard_id_pattern _) eqn:Hid; cbn [andb];
        repeat case_match; intros [= <-]; done. }
    split; [done|]. split; [by eexists|]. split; [|done].
    left. simpl. by rewrite Hst.
  - unfold assign_shard_to_agent.
    destruct (find_shard i _) as [[k s]|] eqn:Hs; [|done].
    destruct (find_agent _ _) as [[j a]|]; [|done].
    split; [|done]. simpl. apply Forall_insert; [done|].
    apply find_shard_Some in Hs as (Hk & _).
    destruct (Forall_lookup_1 _ _ _ _ Ha Hk) as (Hid & Hrole & _ & Hdone).
    split; [done|]. split; [done|]. split; [by right | done].
  - unfold complete_shard.
    destruct (find_shard i _) as [[k s]|] eqn:Hs; [|done].
    apply find_shard_Some in Hs as (Hk & _).
    destruct (Forall_lookup_1 _ _ _ _ Ha Hk) as (Hid & Hrole & _ & _).
    assert (completed_record
              (ShardDict.set_completed_at (isoformat now)
                 (ShardDict.set_status (TaskStatus_value COMPLETED) s))) as Hnew.
    { split; [done|]. split; [done|]. split; [done | by eexists]. }
    assert (Forall active_record
              (delete k (ShardDocument.active_shards (active_shards self))))
      as Hrest.
    { apply Forall_forall. intros x Hx%list_elem_of_delete_inv.
      by apply (proj1 (Forall_forall _ _) Ha). }
    destruct (ShardDocument.metrics _) as [m|]; [destruct (m !! _)|];
      (split; [done|]; simpl; apply Forall_app; split; [done|];
       by apply Forall_singleton).
Qed.

Lemma step_keeps_rest (self : t) (o : op) :
  ShardDocument.archived_shards (active_shards (step self o))
  = ShardDocument.archived_shards (active_shards self) /\
  journal (step self o) = journal self /\
  guru_agents (step self o) = guru_agents self.
Proof.
  destruct o as [utcnow i ti de ow pr deps | i | now i]; simpl.
  - unfold create_story_shard. by destruct (StoryShardSpec.validate _).
  - unfold assign_shard_to_agent.
    by destruct (find_shard i _) as [[k s]|]; [destruct (find_agent _ _) as [[j a]|]|].
  - unfold complete_shard.
    destruct (find_shard i _) as [[k s]|]; [|done].
    by destruct (ShardDocument.metrics _) as [m|]; [destruct (m !! _)|].
Qed.

End WellFormed.

(** X22. Over every run of [Create], [Assign] and [Complete], started from
    collections whose records are well formed (for instance empty ones):
    every active record has an id that matches the pattern, the value of
    a role as owner, status [pending] or [in_progress] and no completion
    time; every completed record has status [completed] and a completion
    time. The run never changes the archived collection, the journal or
    the manifest: no operation archives a shard. *)
Theorem lifecycle_keeps_records_well_formed (self : t) (ops : list op) :
  well_formed self ->
  well_formed (run self ops) /\
  ShardDocument.archived_shards (active_shards (run self ops))
  = ShardDocument.archived_shards (active_shards self) /\
  journal (run self ops) = journal self /\
  guru_agents (run self ops) = guru_agents self.
Proof.
  revert self. induction ops as [|o ops IH]; intros self Hwf; [done|].
  simpl. destruct (IH (step self o)) as (Hwf' & Har & Hj & Hg).
  { by apply step_well_formed. }
  destruct (step_keeps_rest self o) as (Har0 & Hj0 & Hg0).
  split; [done|]. by rewrite Har, Hj, Hg.
Qed.

Lemma lifecycle_keeps_records_well_formed_witness :
  well_formed (run fresh two_shards).
Proof.
  apply (lifecycle_keeps_records_well_formed fresh two_shards).
  split; apply Forall_nil_2.
Defined.

Section Content.

Lemma occurs_in_app_r (s a b : string) : occurs_in s b -> occurs_in s (a +:+ b).
Proof.
  intros (x & y & ->). exists (a +:+ x), y. by rewrite string_app_assoc.
Qed.

Lemma occurs_in_app_l (s a b : string) : occurs_in s a -> occurs_in s (a +:+ b).
Proof.
  intros (x & y & ->). exists x, (y +:+ b). by rewrite !string_app_assoc.
Qed.

Lemma occurs_in_here (s b : string) : occurs_in s (s +:+ b).
Proof. by exists "", b. Qed.

End Content.

Ltac find_occurrence :=
  first [ apply occurs_in_here
        | apply occurs_in_app_l; find_occurrence
        | apply occurs_in_app_r; find_occurrence ].

(** X23. The text written for a journal entry contains its task id, the
    value of its status, the value of its agent and its summary; so the
    file a successful [create_journal_entry] writes contains the trimmed
    task id and the trimmed summary that were passed. *)
Theorem journal_content_mentions_entry (entry : AgenticJournalEntry.t) :
  occurs_in (AgenticJournalEntry.task_id entry) (journal_content entry) /\
  occurs_in (TaskStatus_value (AgenticJournalEntry.status entry))
    (journal_content entry) /\
  occurs_in (AgentRole_value (AgenticJournalEntry.guru_agent entry))
    (journal_content entry) /\
  occurs_in (AgenticJournalEntry.logic_summary entry) (journal_content entry) /\
  (forall self self' utcnow now task_id guru_agent logic_summary sub_agents
          artifacts status,
     create_journal_entry self utcnow now task_id guru_agent logic_summary
       sub_agents artifacts status = (Ok entry, self') ->
     exists text,
       journal self' !! journal_filename now task_id = Some text /\
       occurs_in (PyStr.strip task_id) text /\
       occurs_in (PyStr.strip logic_summary) text).
Proof.
  assert (occurs_in (AgenticJournalEntry.task_id entry) (journal_content entry))
    as Htid by (unfold journal_content; cbn [PyStr.join]; find_occurrence).
  assert (occurs_in (AgenticJournalEntry.logic_summary entry)
            (journal_content entry)) as Hls
    by (unfold journal_content; cbn [PyStr.join]; find_occurrence).
  split; [done|].
  split; [unfold journal_content; cbn [PyStr.join]; find_occurrence|].
  split; [unfold journal_content; cbn [PyStr.join]; find_occurrence|].
  split; [done|].
  intros self self' utcnow now task_id guru_agent logic_summary sub_agents
    artifacts status Hrec.
  rewrite create_journal_entry_cases in Hrec.
  destruct (_ && _); [|done].
  destruct (open_for_writing _); [done|]. injection Hrec as <- <-.
  eexists. split; [apply lookup_insert_eq|]. split; [apply Htid | apply Hls].
Qed.

Lemma journal_content_mentions_entry_witness :
  exists text,
    journal (snd (first_record fresh))
      !! journal_filename morning "SHARD-006-WORKFLOW" = Some text /\
    occurs_in "SHARD-006-WORKFLOW" text.
Proof.
  destruct (first_record fresh) as [[entry|e] self'] eqn:Hrec.
  - unfold first_record in Hrec.
    destruct (journal_content_mentions_entry entry) as (_ & _ & _ & _ & Hfile).
    destruct (Hfile _ _ _ _ _ _ _ _ _ _ Hrec) as (text & Hlookup & Htid & _).
    exists text. split; [exact Hlookup | exact Htid].
  - vm_compute in Hrec. discriminate Hrec.
Defined.
